(** * A shallow embedding of [scaffold.py]

    The generator is a sequence of [pathlib] calls on a file system, so the
    embedding has four layers:

    - text helpers: [textwrap.dedent] and [str.lstrip], as the render
      functions call them, and the render functions [make_*] themselves;
    - pure paths: [pathlib]'s POSIX parsing of a string into parts and the
      [/] operator;
    - the world: a finite map from paths to nodes (regular file or
      directory) and the lines written to standard output, with the
      [pathlib.Path] methods the script uses ([exists], [iterdir], [mkdir],
      [write_text]) as computations that may raise an [OSError] or leave
      through [sys.exit];
    - the script's own functions [write_file], [write_init] and [scaffold].

    The file system is keyed by [pathlib] parts as they are written.
    Symbolic links, the resolution of [..], permissions and the limits on
    the length of a name are not part of the state: a relative and an
    absolute spelling of one file are two keys, and no operation fails on
    a name ([portable] names the roots for which this makes no
    difference).  The errors that the model raises are those decided by
    the kind of the nodes ([ENOENT], [ENOTDIR], [EEXIST], [EISDIR]): an
    operation looks at a path and at its parent, and where the parent is
    missing the error is the one of the kernel's walk from the anchor
    ([lookup_errno]): [ENOTDIR] below a regular file, [ENOENT] otherwise.
    Every operation keeps the file system a tree ([well_formed],
    [keeps_tree_scaffold]). *)

From stdpp Require Import gmap strings list fin_maps.
From Stdlib Require Import Ascii ZArith.

Local Open Scope stdpp_scope.

(** ** Text helpers *)

Definition nl : string := String "010"%char "".
Definition tab : string := String "009"%char "".
Definition dq : string := String "034"%char "".
Definition backslash : string := String "092"%char "".

(** ["..."] inside a Python literal. *)
Definition quoted (s : string) : string := dq +:+ s +:+ dq.

(** A literal written line by line: the lines joined by newlines. *)
Definition text (ls : list string) : string := String.concat nl ls.

(** [s.split(c)]: always at least one piece. *)
Fixpoint split_on (c : ascii) (s : string) : list string :=
  match s with
  | EmptyString => [""]
  | String a s' =>
      if decide (a = c) then "" :: split_on c s'
      else match split_on c s' with
           | l :: ls => String a l :: ls
           | [] => [String a ""]
           end
  end.

(** The class [[ \t]] of [textwrap]'s regular expressions. *)
Definition is_blank (a : ascii) : bool :=
  bool_decide (a = " "%char) || bool_decide (a = "009"%char).

Fixpoint leading_blanks (l : string) : string :=
  match l with
  | String a l' => if is_blank a then String a (leading_blanks l') else ""
  | EmptyString => ""
  end.

(** [_whitespace_only_re.sub('', text)], on one line. *)
Definition blank_whitespace_only (l : string) : string :=
  if decide (l = leading_blanks l) then "" else l.

(** [_leading_whitespace_re.findall(text)]: the indentation of every line
    that has a character outside [[ \t]]. *)
Definition indents (ls : list string) : list string :=
  omap (λ l, if decide (l = leading_blanks l) then None
             else Some (leading_blanks l)) ls.

(** [margin[:i]] at the first [i] where [margin] and [indent] differ. *)
Fixpoint until_mismatch (margin indent : string) : string :=
  match margin, indent with
  | String x m', String y i' =>
      if decide (x = y) then String x (until_mismatch m' i') else ""
  | _, _ => ""
  end.

(** One round of the loop over [indents] in [dedent]. *)
Definition narrow (margin : option string) (indent : string) : option string :=
  match margin with
  | None => Some indent
  | Some m =>
      if String.prefix m indent then Some m
      else if String.prefix indent m then Some indent
      else Some (until_mismatch m indent)
  end.

(** [re.sub(r'(?m)^' + margin, '', text)], on one line. *)
Fixpoint remove_margin (margin l : string) : option string :=
  match margin, l with
  | EmptyString, _ => Some l
  | String x m', String y l' =>
      if decide (x = y) then remove_margin m' l' else None
  | String _ _, EmptyString => None
  end.

(** [textwrap.dedent] (the regular-expression implementation). *)
Definition dedent (t : string) : string :=
  let ls := blank_whitespace_only <$> split_on "010"%char t in
  match foldl narrow None (indents ls) with
  | Some (String x m) =>
      text ((λ l, default l (remove_margin (String x m) l)) <$> ls)
  | _ => text ls
  end.

(** [str.isspace] on the characters below 128. *)
Definition isspace (a : ascii) : bool :=
  let n := nat_of_ascii a in
  ((9 <=? n)%nat && (n <=? 13)%nat) || ((28 <=? n)%nat && (n <=? 32)%nat).

(** [str.lstrip()]. *)
Fixpoint lstrip (s : string) : string :=
  match s with
  | String a s' => if isspace a then lstrip s' else s
  | EmptyString => ""
  end.

(** ** The render functions (FILES section of the script) *)

Definition make_pyproject (project_name : string) : string :=
  lstrip (dedent (text [
    "";
    "    [project]";
    "    name = " +:+ quoted project_name;
    "    version = " +:+ quoted "0.1.0";
    "    description = " +:+ quoted "DDD FastAPI service";
    "    requires-python = " +:+ quoted ">=3.11";
    "    dependencies = [";
    "      " +:+ quoted "fastapi[all]>=0.116.1" +:+ ",";
    "      " +:+ quoted "pydantic>=2.3.0" +:+ ",";
    "      " +:+ quoted "python-dotenv" +:+ ",";
    "    ]";
    "";
    "    [tool.pytest.ini_options]";
    "    addopts = " +:+ quoted "-q";
    "    testpaths = [" +:+ quoted "tests" +:+ "]";
    "    "
  ])).

Definition make_requirements : string :=
  lstrip (dedent (text [
    "";
    "    fastapi[all]==0.116.1";
    "    pydantic>=2.3.0";
    "    python-dotenv";
    "    "
  ])).

Definition make_importlinter : string :=
  lstrip (dedent (text [
    "";
    "    [importlinter]";
    "    root_package = src";
    "";
    "    [importlinter:contract:layered-architecture]";
    "    name = Layered architecture";
    "    type = layers";
    "    layers =";
    "        src.api";
    "        src.infrastructure";
    "        src.application";
    "        src.domain";
    "    rules =";
    "        src.api -> src.infrastructure";
    "        src.infrastructure -> src.application";
    "        src.application -> src.domain";
    "    "
  ])).

Definition make_dockerfile : string :=
  lstrip (dedent (text [
    "";
    "    # syntax=docker/dockerfile:1.4";
    "    FROM python:3.12-slim AS base";
    "    WORKDIR /app";
    "    COPY requirements.txt .";
    "    RUN --mount=type=cache,target=/root/.cache/pip " +:+
    "        pip install --upgrade pip && pip install -r requirements.txt";
    "";
    "    FROM base AS final";
    "    COPY . .";
    "    EXPOSE 8000";
    "    CMD [" +:+ quoted "uvicorn" +:+ ", " +:+ quoted "src.main:app" +:+ ", " +:+ quoted "--host" +:+ ", " +:+ quoted "0.0.0.0" +:+ ", " +:+ quoted "--port" +:+ ", " +:+ quoted "8000" +:+ "]";
    "    "
  ])).

Definition make_compose (project_name : string) : string :=
  lstrip (dedent (text [
    "";
    "    services:";
    "      app:";
    "        build:";
    "          context: ../";
    "          dockerfile: Dockerfile";
    "        container_name: " +:+ project_name +:+ "-app";
    "        ports:";
    "          - " +:+ quoted "8000:8000";
    "        volumes:";
    "          - ../:/app";
    "        env_file:";
    "          - ../.env";
    "        command: uvicorn src.main:app --host 0.0.0.0 --port 8000 --reload";
    "    "
  ])).

Definition make_makefile : string :=
  text [
    ".PHONY: run test test-cov lint format precommit-install up down shell sec contracts clean-pyc";
    "";
    "COMPOSE_DEV = docker compose -f infra/docker-compose.yml";
    "";
    "run:";
    tab +:+ "uvicorn src.main:app --host 0.0.0.0 --port 8000 --reload";
    "";
    "test:";
    tab +:+ "PYTHONPATH=. pytest -q";
    "";
    "test-cov:";
    tab +:+ "PYTHONPATH=. pytest --cov=src --cov-report=term-missing";
    "";
    "lint:";
    tab +:+ "ruff check --config=ruff.toml src/ --fix";
    "";
    "format:";
    tab +:+ "ruff check --config=pyproject.toml src --fix --select I --exclude " +:+ quoted "migrations";
    tab +:+ "ruff format src";
    "";
    "precommit-install:";
    tab +:+ "python -m pip install pre-commit && pre-commit install";
    "";
    "build:";
    tab +:+ "$(COMPOSE_DEV) build --no-cache";
    "";
    "up:";
    tab +:+ "$(COMPOSE_DEV) up";
    "";
    "down:";
    tab +:+ "$(COMPOSE_DEV) down";
    "";
    "shell:";
    tab +:+ "$(COMPOSE_DEV) exec -it app bash";
    "";
    "sec:";
    tab +:+ "bandit -r src && " +:+ backslash;
    tab +:+ "pip-audit -r requirements-tests.txt";
    "";
    "contracts:";
    tab +:+ "lint-imports";
    "";
    "clean-pyc:";
    tab +:+ "find . -type d -name " +:+ quoted "__pycache__" +:+ " -exec rm -rf {} +";
    tab +:+ "find . -type f -name " +:+ quoted "*.pyc" +:+ " -delete";
    tab +:+ "find . -type f -name " +:+ quoted "*.pyo" +:+ " -delete";
    ""
  ].

Definition make_gitignore : string :=
  lstrip (dedent (text [
    "";
    "    __pycache__/";
    "    *.pyc";
    "    .env";
    "    .venv/";
    "    .env.local";
    "    .cache/";
    "    htmlcov/";
    "    coverage.xml";
    "    .idea/";
    "    .vscode/";
    "    "
  ])).

Definition make_pytest_ini : string :=
  lstrip (dedent (text [
    "";
    "    [pytest]";
    "    addopts = -ra -q";
    "    python_files = test_*.py";
    "    python_classes = Test*";
    "    testpaths = tests ";
    "    "
  ])).

Definition make_ruff_toml : string :=
  lstrip (dedent (text [
    "";
    "    line-length = 120";
    "";
    "    [lint]";
    "    select = [";
    "        " +:+ quoted "ANN001" +:+ ", # missing-type-function-argument";
    "        " +:+ quoted "ANN002" +:+ ", # missing-type-args";
    "        " +:+ quoted "ANN003" +:+ ", # missing-type-kwargs";
    "        " +:+ quoted "ANN201" +:+ ", # missing-return-type-undocumented-public-function";
    "        " +:+ quoted "ANN202" +:+ ", # missing-return-type-private-function";
    "        " +:+ quoted "ANN205" +:+ ", # missing-return-type-static-method";
    "        " +:+ quoted "ANN206" +:+ ", # missing-return-type-class-method";
    "        " +:+ quoted "ANN401" +:+ ", # any_type";
    "        " +:+ quoted "B904" +:+ ",   # raise-without-from-inside-except";
    "        " +:+ quoted "RSE102" +:+ ", # Unnecessary parentheses on raised exception";
    "        " +:+ quoted "T20" +:+ ",    # print_found";
    "        " +:+ quoted "TRY002" +:+ ", # raise-vanilla-class";
    "        " +:+ quoted "C4" +:+ ",     # flake8-comprehensions";
    "        " +:+ quoted "E" +:+ ",      # pycodestyle errors";
    "        " +:+ quoted "F" +:+ ",      # pyflakes";
    "        " +:+ quoted "I" +:+ ",      # isort";
    "        " +:+ quoted "ICN" +:+ ",    # flake8-import-conventions";
    "        " +:+ quoted "ISC" +:+ ",    # flake8-str-concat";
    "        " +:+ quoted "RET" +:+ ",    # flake8-return";
    "        " +:+ quoted "RUF" +:+ ",    # ruff";
    "        " +:+ quoted "SIM" +:+ ",    # common simplification rules";
    "        " +:+ quoted "UP" +:+ ",     # pyupgrade";
    "        " +:+ quoted "W" +:+ "       # pycodestyle warnings";
    "    ]";
    "    "
  ])).

Definition make_requirements_tests : string :=
  lstrip (dedent (text [
    "";
    "    -r requirements.txt";
    "    pytest==8.4.1";
    "    pytest-cov==6.2.1";
    "    pytest-mock==3.14.1";
    "    bandit==1.8.5";
    "    pip-audit==2.7.3";
    "    import-linter==2.3";
    "    ruff";
    "    "
  ])).

Definition make_precommit : string :=
  lstrip (dedent (text [
    "";
    "    repos:";
    "      - repo: https://github.com/astral-sh/ruff-pre-commit";
    "        rev: v0.6.4";
    "        hooks:";
    "          - id: ruff";
    "          - id: ruff-format";
    "      - repo: https://github.com/pre-commit/pre-commit-hooks";
    "        rev: v4.6.0";
    "        hooks:";
    "          - id: end-of-file-fixer";
    "          - id: trailing-whitespace";
    "    "
  ])).

Definition make_env_example : string :=
  lstrip (dedent (text [
    "";
    "    # Example environment variables";
    "    APP_ENV=development";
    "    APP_DEBUG=true";
    "    "
  ])).

Definition make_main : string :=
  lstrip (dedent (text [
    "";
    "    from fastapi import FastAPI";
    "    from src.api.v1.endpoints import health";
    "";
    "    app = FastAPI(title=" +:+ quoted "DDD FastAPI Service" +:+ ")";
    "    app.include_router(health.router, prefix=" +:+ quoted "/v1" +:+ ")";
    "    "
  ])).

Definition make_dependencies : string :=
  lstrip (dedent (text [
    "";
    "    from fastapi import Depends";
    "";
    "    # Placeholder dependencies";
    "    def get_example_dep():";
    "        return " +:+ quoted "dep";
    "    "
  ])).

Definition make_schemas : string :=
  lstrip (dedent (text [
    "";
    "    from pydantic import BaseModel";
    "";
    "    class HealthResponse(BaseModel):";
    "        status: str";
    "    "
  ])).

Definition make_sample_endpoint : string :=
  lstrip (dedent (text [
    "";
    "    from fastapi import APIRouter";
    "    from src.api.v1.schemas import HealthResponse";
    "";
    "    router = APIRouter()";
    "";
    "    @router.get(" +:+ quoted "/health" +:+ ", response_model=HealthResponse)";
    "    def health():";
    "        return {" +:+ quoted "status" +:+ ": " +:+ quoted "ok" +:+ "}";
    "    "
  ])).

Definition make_test_health : string :=
  lstrip (dedent (text [
    "";
    "    from fastapi.testclient import TestClient";
    "    from src.main import app";
    "";
    "    client = TestClient(app)";
    "";
    "    def test_health():";
    "        resp = client.get(" +:+ quoted "/v1/health" +:+ ")";
    "        assert resp.status_code == 200";
    "        assert resp.json()[" +:+ quoted "status" +:+ "] == " +:+ quoted "ok";
    "    "
  ])).

Definition make_config : string :=
  lstrip (dedent (text [
    "";
    "    from pydantic import BaseSettings, SettingsConfigDict";
    "";
    "    class Settings(BaseSettings):";
    "        app_env: str = " +:+ quoted "development";
    "        app_debug: bool = True";
    "        ";
    "        model_config = SettingsConfigDict(env_file=" +:+ quoted ".env" +:+ ", env_file_encoding=" +:+ quoted "utf-8" +:+ ")";
    "    settings = Settings()";
    "    "
  ])).

(** ** Pure paths ([pathlib.PurePosixPath])

    A path is the list of its [parts]; an absolute path starts with the
    part ["/"] (or ["//"], which POSIX keeps apart when there are exactly
    two leading slashes). *)

Abbreviation path := (list string).

Definition anchor_of (s : string) : path :=
  match s with
  | String "/" (String "/" (String "/" _)) => ["/"]
  | String "/" (String "/" _) => ["//"]
  | String "/" _ => ["/"]
  | _ => []
  end.

(** [Path(s)]: empty and ["."] components are dropped. *)
Definition Path (s : string) : path :=
  anchor_of s ++ filter (λ x, x ≠ "" ∧ x ≠ ".") (split_on "/"%char s).

Definition is_absolute (p : path) : bool :=
  match p with
  | x :: _ => bool_decide (x = "/") || bool_decide (x = "//")
  | [] => false
  end.

(** [p / s]: an absolute right operand replaces the left one. *)
Definition truediv (p : path) (s : string) : path :=
  if is_absolute (Path s) then Path s else p ++ Path s.

Infix "</>" := truediv (at level 40, left associativity).

(** The paths that always exist: the current directory [[]] and the roots. *)
Definition is_anchor (p : path) : bool :=
  match p with
  | [] => true
  | [x] => is_absolute [x]
  | _ => false
  end.

(** [p.parent]; the anchors are their own parents. *)
Definition parent (p : path) : path :=
  if is_anchor p then p else removelast p.

(** [str(p)]. *)
Definition path_str (p : path) : string :=
  match p with
  | [] => "."
  | x :: t => if is_absolute [x] then x +:+ String.concat "/" t
              else String.concat "/" p
  end.

(** ** The world: file system and standard output *)

Inductive node :=
  | File (content : string)
  | Dir.

Global Instance node_eq_dec : EqDecision node.
Proof. solve_decision. Defined.

Record world := World {
  files : gmap (list string) node;
  stdout : list string
}.

Definition set_files (f : gmap (list string) node → gmap (list string) node)
    (w : world) : world :=
  {| files := f (files w); stdout := stdout w |}.

(** [os.stat]: what is at [p], if anything. *)
Definition stat (w : world) (p : path) : option node :=
  if is_anchor p then Some Dir else files w !! p.

Inductive errno := ENOENT | EEXIST | ENOTDIR | EISDIR.

Global Instance errno_eq_dec : EqDecision errno.
Proof. solve_decision. Defined.

(** Python's [OSError] with its [errno] and [filename]:
    [FileNotFoundError] is [ENOENT], [FileExistsError] is [EEXIST],
    [NotADirectoryError] is [ENOTDIR], [IsADirectoryError] is [EISDIR]. *)
Inductive exn := OSError (e : errno) (filename : path).

Global Instance exn_eq_dec : EqDecision exn.
Proof. solve_decision. Defined.

(** How a computation ends: normally, by an uncaught exception, or by
    [sys.exit]. *)
Inductive result (A : Type) :=
  | Ok (a : A)
  | Raised (e : exn)
  | Exited (code : Z).
Arguments Ok {A} a.
Arguments Raised {A} e.
Arguments Exited {A} code.

(** Computations over the world.  The world is returned in every case:
    what was written before an exception stays written. *)
Definition M (A : Type) : Type := world → result A * world.

Definition ret {A} (a : A) : M A := λ w, (Ok a, w).

Definition bind {A B} (f : A → M B) (m : M A) : M B := λ w,
  match m w with
  | (Ok a, w') => f a w'
  | (Raised e, w') => (Raised e, w')
  | (Exited c, w') => (Exited c, w')
  end.

(** stdpp's notations [x ← m; k] and [m;; k] for sequencing. *)
Global Instance M_ret : MRet M := @ret.
Global Instance M_bind : MBind M := @bind.

(** [sys.exit(code)]. *)
Definition sys_exit {A} (code : Z) : M A := λ w, (Exited code, w).

(** [print(line)]. *)
Definition print (line : string) : M unit := λ w,
  (Ok tt, {| files := files w; stdout := stdout w ++ [line] |}).

(** [for x in l: body(x)]. *)
Fixpoint for_each {A} (l : list A) (body : A → M unit) : M unit :=
  match l with
  | [] => ret tt
  | x :: l' => body x ;; for_each l' body
  end.

(** The error of a lookup that does not reach [p]: the kernel walks the
    names from the anchor and stops at the first one that is not a
    directory, with [ENOTDIR] where a regular file is in the way and
    [ENOENT] where the name is missing. *)
Fixpoint walk_errno (w : world) (cur : path) (names : list string) : errno :=
  match names with
  | [] => ENOENT
  | x :: names' =>
      match stat w (cur ++ [x]) with
      | Some Dir => walk_errno w (cur ++ [x]) names'
      | Some (File _) => ENOTDIR
      | None => ENOENT
      end
  end.

Definition lookup_errno (w : world) (p : path) : errno := walk_errno w [] p.

(** ** [pathlib.Path] methods *)

(** [p.exists()]. *)
Definition path_exists (p : path) : M bool := λ w,
  (Ok (bool_decide (is_Some (stat w p))), w).

(** The entries of the directory [p]. *)
Definition entries (w : world) (p : path) : list path :=
  filter (λ q, is_anchor q = false ∧ parent q = p) (map_to_list (files w)).*1.

(** [p.iterdir()], consumed at once ([os.listdir] fails as the lookup of
    [p] does). *)
Definition iterdir (p : path) : M (list path) := λ w,
  match stat w p with
  | None => (Raised (OSError (lookup_errno w p) p), w)
  | Some (File _) => (Raised (OSError ENOTDIR p), w)
  | Some Dir => (Ok (entries w p), w)
  end.

(** [any(l)] for a list of [Path] objects, which are all truthy. *)
Definition any {A} (l : list A) : bool :=
  match l with [] => false | _ :: _ => true end.

(** [os.mkdir(p)]: the parent must be a directory and [p] free; where the
    parent is missing, the error is the one of its lookup. *)
Definition os_mkdir (p : path) : M unit := λ w,
  match stat w (parent p) with
  | None => (Raised (OSError (lookup_errno w (parent p)) p), w)
  | Some (File _) => (Raised (OSError ENOTDIR p), w)
  | Some Dir =>
      match stat w p with
      | Some _ => (Raised (OSError EEXIST p), w)
      | None => (Ok tt, set_files <[p := Dir]> w)
      end
  end.

(** [p.mkdir(parents=parents, exist_ok=exist_ok)], as [pathlib] writes it:
    try [os.mkdir]; on [FileNotFoundError] make the parent and retry; on
    any other [OSError] re-raise unless [exist_ok] and [p.is_dir()].
    [fuel] bounds the recursion on the parents; [mkdir] gives it the
    length of the path, which is enough ([mkdir_aux_succeeds]). *)
Fixpoint mkdir_aux (fuel : nat) (p : path) (parents exist_ok : bool) : M unit :=
  λ w,
  match os_mkdir p w with
  | (Raised (OSError ENOENT f), w1) =>
      if negb parents || bool_decide (parent p = p)
      then (Raised (OSError ENOENT f), w1)
      else match fuel with
           | O => (Raised (OSError ENOENT f), w1)
           | S n =>
               (mkdir_aux n (parent p) true true;;
                mkdir_aux n p false exist_ok) w1
           end
  | (Raised e, w1) =>
      if negb exist_ok || negb (bool_decide (stat w1 p = Some Dir))
      then (Raised e, w1)
      else (Ok tt, w1)
  | r => r
  end.

Definition mkdir (p : path) (parents exist_ok : bool) : M unit :=
  mkdir_aux (length p) p parents exist_ok.

(** [p.write_text(content, encoding="utf-8")]: [open(p, "w")] needs the
    parent to be a directory and [p] not to be one; where the parent is
    missing, the error is the one of its lookup. *)
Definition write_text (p : path) (content : string) : M unit := λ w,
  match stat w (parent p) with
  | None => (Raised (OSError (lookup_errno w (parent p)) p), w)
  | Some (File _) => (Raised (OSError ENOTDIR p), w)
  | Some Dir =>
      match stat w p with
      | Some Dir => (Raised (OSError EISDIR p), w)
      | _ => (Ok tt, set_files <[p := File content]> w)
      end
  end.

(** ** The script's functions (UTIL and SCAFFOLD sections) *)

Definition write_file (p : path) (content : string) (force : bool) : M unit :=
  mkdir (parent p) true true;;
  e ← path_exists p;
  if e && negb force then ret tt
  else write_text p content.

Definition init_content : string := "# Auto-generated __init__.py" +:+ nl.

Definition write_init (p : path) (force : bool) : M unit :=
  let init_file := p </> "__init__.py" in
  e ← path_exists init_file;
  if negb e || force then write_text init_file init_content
  else ret tt.

(** The list [dirs] of [scaffold]. *)
Definition dirs (root : path) : list path := [
  root </> "src";
  root </> "src" </> "api";
  root </> "src" </> "api" </> "v1" </> "endpoints";
  root </> "src" </> "api" </> "v1";
  root </> "src" </> "application";
  root </> "src" </> "domain";
  root </> "src" </> "infrastructure";
  root </> "tests" </> "api";
  root </> "tests" </> "application";
  root </> "tests" </> "domain";
  root </> "tests" </> "infrastructure"
].

Definition scaffold (project_path project_name : string) (force : bool) : M unit :=
  let root := Path project_path </> project_name in
  e ← path_exists root;
  nonempty ← (if e : bool then l ← iterdir root; ret (any l) else ret false);
  if nonempty && negb force then
    print ("[ERROR] Target path already exists and is not empty: "
           +:+ path_str root);;
    sys_exit 1
  else
    for_each (dirs root) (λ d, mkdir d true true;; write_init d false);;
    write_file (root </> "pyproject.toml") (make_pyproject project_name) force;;
    write_file (root </> "requirements.txt") make_requirements force;;
    write_file (root </> "requirements-tests.txt") make_requirements_tests force;;
    write_file (root </> "Dockerfile") make_dockerfile force;;
    write_file (root </> "infra" </> "docker-compose.yml") (make_compose project_name) force;;
    write_file (root </> "Makefile") make_makefile force;;
    write_file (root </> ".gitignore") make_gitignore force;;
    write_file (root </> "pytest.ini") make_pytest_ini force;;
    write_file (root </> ".importlinter") make_importlinter force;;
    write_file (root </> "ruff.toml") make_ruff_toml force;;
    write_file (root </> ".pre-commit-config.yaml") make_precommit force;;
    write_file (root </> ".env.example") make_env_example force;;
    write_file (root </> ".env") make_env_example force;;
    write_file (root </> "src" </> "main.py") make_main force;;
    write_file (root </> "src" </> "api" </> "v1" </> "dependencies.py") make_dependencies force;;
    write_file (root </> "src" </> "api" </> "v1" </> "schemas.py") make_schemas force;;
    write_file (root </> "src" </> "api" </> "v1" </> "endpoints" </> "health.py") make_sample_endpoint force;;
    write_file (root </> "src/config.py") make_config force;;
    write_file (root </> "src/.env") make_env_example force;;
    write_file (root </> "tests" </> "api" </> "test_health.py") make_test_health force;;
    print ("[OK] Project generated at: " +:+ path_str root).

(** ** The phases of [scaffold], named

    [scaffold] is the root guard, then the loop over [dirs], then the
    twenty [write_file] calls, then the final [print].  The definitions
    below name these phases and the data they run over; [scaffold_phases]
    proves that [scaffold] is their sequence. *)

(** The root of the generated tree. *)
Definition root_of (project_path project_name : string) : path :=
  Path project_path </> project_name.

(** The marker file of a directory. *)
Definition marker (d : path) : path := d </> "__init__.py".

(** The artifacts in the order [scaffold] writes them: path and content. *)
Definition catalog (root : path) (project_name : string) : list (path * string) := [
  (root </> "pyproject.toml", make_pyproject project_name);
  (root </> "requirements.txt", make_requirements);
  (root </> "requirements-tests.txt", make_requirements_tests);
  (root </> "Dockerfile", make_dockerfile);
  (root </> "infra" </> "docker-compose.yml", make_compose project_name);
  (root </> "Makefile", make_makefile);
  (root </> ".gitignore", make_gitignore);
  (root </> "pytest.ini", make_pytest_ini);
  (root </> ".importlinter", make_importlinter);
  (root </> "ruff.toml", make_ruff_toml);
  (root </> ".pre-commit-config.yaml", make_precommit);
  (root </> ".env.example", make_env_example);
  (root </> ".env", make_env_example);
  (root </> "src" </> "main.py", make_main);
  (root </> "src" </> "api" </> "v1" </> "dependencies.py", make_dependencies);
  (root </> "src" </> "api" </> "v1" </> "schemas.py", make_schemas);
  (root </> "src" </> "api" </> "v1" </> "endpoints" </> "health.py", make_sample_endpoint);
  (root </> "src/config.py", make_config);
  (root </> "src/.env", make_env_example);
  (root </> "tests" </> "api" </> "test_health.py", make_test_health)
].

Definition guard_message (root : path) : string :=
  "[ERROR] Target path already exists and is not empty: " +:+ path_str root.

Definition ok_message (root : path) : string :=
  "[OK] Project generated at: " +:+ path_str root.

(** Lines 309-311: the root guard. *)
Definition root_guard (root : path) (force : bool) : M unit :=
  e ← path_exists root;
  nonempty ← (if e : bool then l ← iterdir root; ret (any l) else ret false);
  if nonempty && negb force then print (guard_message root);; sys_exit 1
  else ret tt.

(** Lines 327-329: the loop over [dirs]. *)
Definition make_dirs (root : path) : M unit :=
  for_each (dirs root) (λ d, mkdir d true true;; write_init d false).

(** Lines 332-360, over a list of artifacts. *)
Definition write_all (l : list (path * string)) (force : bool) : M unit :=
  for_each l (λ a, write_file a.1 a.2 force).

(** [scaffold] up to and including the artifacts [l]. *)
Definition scaffold_upto (root : path) (force : bool) (l : list (path * string)) : M unit :=
  root_guard root force;; make_dirs root;; write_all l force.

(** The world with one more line on standard output. *)
Definition printed (line : string) (w : world) : world :=
  {| files := files w; stdout := stdout w ++ [line] |}.

(** The empty file system. *)
Definition empty_world : world := {| files := ∅; stdout := [] |}.

(** ** What a computation may change

    [touches O N D w w'] bounds the difference between two file systems:
    every path is as it was, or is a directory made at a path of [D] that
    was free, or is a file of [O] that was a file before (overwritten), or
    is a file of [N] made at a path that was free. *)

Section touches.
Context (O N D : path → Prop).

Definition touches (w w' : world) : Prop := ∀ q,
  stat w' q = stat w q
  ∨ (D q ∧ stat w q = None ∧ stat w' q = Some Dir)
  ∨ (O q ∧ (∃ c, stat w q = Some (File c)) ∧ ∃ c', stat w' q = Some (File c'))
  ∨ (N q ∧ stat w q = None ∧ ∃ c', stat w' q = Some (File c')).

(** [m] stays within the bounds from every world, however it ends. *)
Definition frames {A} (m : M A) : Prop := ∀ w, touches w (m w).2.

End touches.

(** The paths of the artifacts, of the markers, and of the directories
    that [scaffold] passes to [mkdir]. *)
Definition artifact_paths (root : path) (project_name : string) : list path :=
  (catalog root project_name).*1.

Definition marker_paths (root : path) : list path := marker <$> dirs root.

Definition mkdir_targets (root : path) (project_name : string) : list path :=
  dirs root ++ (parent <$> artifact_paths root project_name).

(** The bounds of a run of [scaffold]. *)
Definition overwritable (root : path) (project_name : string) (force : bool)
    (q : path) : Prop :=
  force = true ∧ q ∈ artifact_paths root project_name.

Definition creatable (root : path) (project_name : string) (q : path) : Prop :=
  q ∈ artifact_paths root project_name ∨ q ∈ marker_paths root.

Definition makeable (root : path) (project_name : string) (q : path) : Prop :=
  ∃ p, p ∈ mkdir_targets root project_name ∧ q `prefix_of` p.

(** A computation that never leaves through [sys.exit]. *)
Definition never_exits {A} (m : M A) : Prop := ∀ w c, (m w).1 ≠ Exited c.

(** Bounds that allow everything: what they still say is that nothing is
    deleted and no node changes its kind. *)
Definition anywhere : path → Prop := λ _, True.

(** The same paths relative to the root, as explicit lists. *)
Definition artifact_rels : list path := Eval vm_compute in artifact_paths [] "".
Definition marker_rels : list path := Eval vm_compute in marker_paths [].
Definition target_rels : list path := Eval vm_compute in mkdir_targets [] "".
Definition dir_rels : list path := Eval vm_compute in dirs [].

(** The file system is a tree: what is in it lies in a directory. *)
Definition well_formed (w : world) : Prop :=
  map_Forall (λ q _, is_anchor q = false → stat w (parent q) = Some Dir)
             (files w).

(** A computation that keeps the file system a tree, however it ends. *)
Definition keeps_tree {A} (m : M A) : Prop :=
  ∀ w, well_formed w → well_formed (m w).2.

(** A destination on which a run cannot fail: no file where the run needs
    a directory, no directory where an artifact goes, and a root that the
    guard lets through. *)
Definition usable (root : path) (project_name : string) (force : bool)
    (w : world) : Prop :=
  (∀ q c, makeable root project_name q → stat w q ≠ Some (File c))
  ∧ (∀ q, q ∈ artifact_paths root project_name → stat w q ≠ Some Dir)
  ∧ (force = true ∨ stat w root = None ∨ entries w root = []).

(** The first two parts of [usable] hold along the whole run. *)
Definition run_invariant (root : path) (project_name : string) (w : world) : Prop :=
  (∀ q c, makeable root project_name q → stat w q ≠ Some (File c))
  ∧ (∀ q, q ∈ artifact_paths root project_name → stat w q ≠ Some Dir).

(** ** Concrete file systems

    The worlds on which the runs below are evaluated. *)

(** [/tmp/out/billing] exists and holds somebody else's file. *)
Definition busy_world : world :=
  {| files := {[ ["/"; "tmp"] := Dir;
                 ["/"; "tmp"; "out"] := Dir;
                 ["/"; "tmp"; "out"; "billing"] := Dir;
                 ["/"; "tmp"; "out"; "billing"; "README.md"] := File "mine" ]};
     stdout := [] |}.

(** [/tmp/out] is not empty, but holds no [billing]. *)
Definition shared_world : world :=
  {| files := {[ ["/"; "tmp"] := Dir;
                 ["/"; "tmp"; "out"] := Dir;
                 ["/"; "tmp"; "out"; "other.txt"] := File "other" ]};
     stdout := [] |}.

(** A directory sits where the [Makefile] is to be written. *)
Definition blocked_world : world :=
  {| files := {[ ["/"; "tmp"] := Dir;
                 ["/"; "tmp"; "out"] := Dir;
                 ["/"; "tmp"; "out"; "billing"] := Dir;
                 ["/"; "tmp"; "out"; "billing"; "Makefile"] := Dir ]};
     stdout := [] |}.

(** [src] has a marker and [pyproject.toml] a body, both written by hand. *)
Definition edited_world : world :=
  {| files := {[ ["/"; "tmp"] := Dir;
                 ["/"; "tmp"; "out"] := Dir;
                 ["/"; "tmp"; "out"; "billing"] := Dir;
                 ["/"; "tmp"; "out"; "billing"; "src"] := Dir;
                 ["/"; "tmp"; "out"; "billing"; "src"; "__init__.py"] := File "custom";
                 ["/"; "tmp"; "out"; "billing"; "pyproject.toml"] := File "old" ]};
     stdout := [] |}.

(** The root [/tmp/out/billing] is a regular file. *)
Definition file_root_world : world :=
  {| files := {[ ["/"; "tmp"] := Dir;
                 ["/"; "tmp"; "out"] := Dir;
                 ["/"; "tmp"; "out"; "billing"] := File "notes" ]};
     stdout := [] |}.

(** A computation that prints nothing, however it ends. *)
Definition quiet {A} (m : M A) : Prop := ∀ w, stdout (m w).2 = stdout w.

(** A string without a line break: [s.split("\n") == [s]]. *)
Definition single_line (s : string) : Prop := split_on "010"%char s = [s].

(** A regular file at [p] or above it. *)
Definition below_file (w : world) (p : path) : Prop :=
  ∃ q c, q `prefix_of` p ∧ stat w q = Some (File c).


(** The prefixes of a path, from the empty one to the path itself. *)
Definition prefixes {A} (l : list A) : list (list A) :=
  (λ i, take i l) <$> seq 0 (S (length l)).

(** * Proofs *)

(** ** The text helpers and the path parser on examples *)

Example make_requirements_text :
  make_requirements
  = text ["fastapi[all]==0.116.1"; "pydantic>=2.3.0"; "python-dotenv"; ""].
Proof. reflexivity. Qed.

Example make_compose_names_the_container :
  make_compose "billing"
  = text ["services:"; "  app:"; "    build:"; "      context: ../";
          "      dockerfile: Dockerfile"; "    container_name: billing-app";
          "    ports:"; "      - " +:+ quoted "8000:8000"; "    volumes:";
          "      - ../:/app"; "    env_file:"; "      - ../.env";
          "    command: uvicorn src.main:app --host 0.0.0.0 --port 8000 --reload";
          ""].
Proof. reflexivity. Qed.

(** The backslash at the end of the [RUN] line of [make_dockerfile] joins
    it with the next line of the literal. *)
Example make_dockerfile_run_line :
  split_on "010"%char make_dockerfile !! 4
  = Some ("RUN --mount=type=cache,target=/root/.cache/pip "
          +:+ "        pip install --upgrade pip && pip install -r requirements.txt").
Proof. reflexivity. Qed.

Example dedent_keeps_relative_indentation :
  dedent (text ["  a"; "    b"; "   "; "  c"]) = text ["a"; "  b"; ""; "c"].
Proof. reflexivity. Qed.

Example Path_examples :
  Path "/tmp/out" = ["/"; "tmp"; "out"]
  ∧ Path "a//b/./c/" = ["a"; "b"; "c"]
  ∧ Path "" = []
  ∧ Path "//x" = ["//"; "x"]
  ∧ Path "///x" = ["/"; "x"]
  ∧ Path "/tmp/out" </> "billing" </> "src/config.py"
    = ["/"; "tmp"; "out"; "billing"; "src"; "config.py"]
  ∧ Path "out" </> "/abs" = ["/"; "abs"]
  ∧ path_str (Path "/tmp/out" </> "billing") = "/tmp/out/billing".
Proof. repeat split; reflexivity. Qed.

(** ** The monad *)

Lemma bind_unfold {A B} (m : M A) (f : A → M B) w :
  (m ≫= f) w = match m w with
               | (Ok a, w') => f a w'
               | (Raised e, w') => (Raised e, w')
               | (Exited c, w') => (Exited c, w')
               end.
Proof. reflexivity. Qed.

Lemma bind_ok {A B} (m : M A) (f : A → M B) w b w' :
  (m ≫= f) w = (Ok b, w') ↔ ∃ a w1, m w = (Ok a, w1) ∧ f a w1 = (Ok b, w').
Proof.
  rewrite bind_unfold. split.
  - destruct (m w) as [[a|e|c] w1]; [eauto | discriminate..].
  - intros (a & w1 & -> & Hf). exact Hf.
Qed.

Lemma run_ok {A} (m : M A) w a : (m w).1 = Ok a → m w = (Ok a, (m w).2).
Proof. destruct (m w) as [r w']. simpl. by intros ->. Qed.

Lemma bind_step {A B} (m : M A) (f : A → M B) w a w1 :
  m w = (Ok a, w1) → (m ≫= f) w = f a w1.
Proof. intros H. by rewrite bind_unfold, H. Qed.

Lemma bind_raised {A B} (m : M A) (f : A → M B) w e w1 :
  m w = (Raised e, w1) → (m ≫= f) w = (Raised e, w1).
Proof. intros H. by rewrite bind_unfold, H. Qed.

Lemma bind_assoc {A B C} (m : M A) (f : A → M B) (g : B → M C) w :
  ((m ≫= f) ≫= g) w = (m ≫= λ a, f a ≫= g) w.
Proof.
  rewrite !(bind_unfold m). rewrite (bind_unfold (m ≫= f)), (bind_unfold m).
  by destruct (m w) as [[a|e|c] w1].
Qed.

Lemma for_each_app {A} (l1 l2 : list A) (body : A → M unit) w :
  for_each (l1 ++ l2) body w = (for_each l1 body;; for_each l2 body) w.
Proof.
  revert w. induction l1 as [|x l1 IH]; intros w; simpl.
  - reflexivity.
  - rewrite bind_assoc, !(bind_unfold (body x)).
    destruct (body x w) as [[[]|e|c] w1]; [apply IH | done..].
Qed.

(** ** Paths *)

Lemma truediv_relative (p : path) (s : string) :
  is_absolute (Path s) = false → p </> s = p ++ Path s.
Proof. unfold truediv. by intros ->. Qed.

Lemma is_anchor_app (root rel : path) :
  rel ≠ [] → is_anchor rel = false → is_anchor (root ++ rel) = false.
Proof.
  intros Hne Hrel. destruct root as [|x [|y root]]; simpl; [done| |done].
  by destruct rel.
Qed.

Lemma removelast_app_ne {A} (l1 l2 : list A) :
  l2 ≠ [] → removelast (l1 ++ l2) = l1 ++ removelast l2.
Proof. intros H. by apply removelast_app. Qed.

Lemma parent_app (root rel : path) :
  rel ≠ [] → is_anchor rel = false →
  parent (root ++ rel) = root ++ removelast rel.
Proof.
  intros Hne Hrel. unfold parent.
  rewrite is_anchor_app by done. by apply removelast_app.
Qed.

Lemma parent_prefix (p : path) : parent p `prefix_of` p.
Proof.
  unfold parent. destruct (is_anchor p); [done|].
  destruct (decide (p = [])) as [->|Hne]; [done|].
  exists [List.last p ""]. by apply app_removelast_last.
Qed.

Lemma parent_length (p : path) : parent p ≠ p → length (parent p) < length p.
Proof.
  unfold parent. destruct (is_anchor p) eqn:Ha; [done|]. intros _.
  destruct (decide (p = [])) as [->|Hne]; [done|].
  rewrite (app_removelast_last "" Hne) at 2. rewrite length_app. simpl. lia.
Qed.

Lemma parent_anchor (p : path) : is_anchor p = true → parent p = p.
Proof. unfold parent. by intros ->. Qed.

(** ** [stat] and updates *)

Lemma stat_anchor w p : is_anchor p = true → stat w p = Some Dir.
Proof. unfold stat. by intros ->. Qed.

Lemma stat_not_anchor w p : stat w p ≠ Some Dir → is_anchor p = false.
Proof. unfold stat. by destruct (is_anchor p). Qed.

Lemma stat_insert w p n q :
  is_anchor p = false →
  stat (set_files <[p:=n]> w) q = if decide (q = p) then Some n else stat w q.
Proof.
  intros Hp. unfold stat, set_files. simpl.
  case_decide as Hq.
  - subst q. rewrite Hp. apply lookup_insert_eq.
  - destruct (is_anchor q); [done|]. by apply lookup_insert_ne.
Qed.

Lemma stat_printed line w q : stat (printed line w) q = stat w q.
Proof. reflexivity. Qed.

(** A lookup that meets no regular file stops at a missing name. *)
Lemma walk_errno_clear w cur names :
  (∀ q c, q `prefix_of` cur ++ names → stat w q ≠ Some (File c)) →
  walk_errno w cur names = ENOENT.
Proof.
  revert cur. induction names as [|x names IH]; intros cur H; simpl; [done|].
  destruct (stat w (cur ++ [x])) as [[c|]|] eqn:E; [|apply IH|done].
  - destruct (H (cur ++ [x]) c); [|done]. exists names. by rewrite <- app_assoc.
  - intros q c. rewrite <- app_assoc. apply H.
Qed.

Lemma lookup_errno_clear w p :
  (∀ q c, q `prefix_of` p → stat w q ≠ Some (File c)) →
  lookup_errno w p = ENOENT.
Proof. intros H. by apply (walk_errno_clear w [] p). Qed.

(** ** The bounds [touches] and [frames] *)

Section touches_lemmas.
Context (O N D : path → Prop).

Ltac touch_cases H q :=
  let E := fresh "E" in
  destruct (H q) as [E|[(?&?&E)|[(?&[? ?]&[? E])|(?&?&[? E])]]];
  rewrite ?E in *; try congruence; try contradiction; eauto.

Lemma touches_refl w : touches O N D w w.
Proof. intros q. by left. Qed.

Lemma touches_same_files w w' : files w' = files w → touches O N D w w'.
Proof. intros H q. left. unfold stat. by rewrite H. Qed.

Lemma touches_trans w1 w2 w3 :
  touches O N D w1 w2 → touches O N D w2 w3 → touches O N D w1 w3.
Proof.
  intros H12 H23 q.
  destruct (H12 q) as [E|[(?&E&?)|[(?&[c E]&[c' ?])|(?&E&[c' ?])]]],
    (H23 q) as [F|[(?&?&F)|[(?&[d ?]&[d' F])|(?&?&[d' F])]]];
    try congruence; rewrite ?F, <- ?E; eauto 10.
  all: rewrite ?E; eauto 10.
Qed.

Lemma touches_dir w w' q :
  touches O N D w w' → stat w q = Some Dir → stat w' q = Some Dir.
Proof. intros H Hq. touch_cases H q. Qed.

Lemma touches_exists w w' q :
  touches O N D w w' → is_Some (stat w q) → is_Some (stat w' q).
Proof.
  intros H [n Hq]. touch_cases H q; eauto.
Qed.

Lemma touches_file w w' q c :
  touches O N D w w' → stat w q = Some (File c) →
  ∃ c', stat w' q = Some (File c').
Proof.
  intros H Hq. touch_cases H q; eauto.
Qed.

Lemma touches_file_kept w w' q c :
  touches O N D w w' → ¬ O q → stat w q = Some (File c) →
  stat w' q = Some (File c).
Proof. intros H HO Hq. touch_cases H q. Qed.

Lemma touches_not_dir w w' q :
  touches O N D w w' → ¬ D q → stat w' q = Some Dir → stat w q = Some Dir.
Proof. intros H HD Hq. touch_cases H q. Qed.

Lemma touches_file_back w w' q c :
  touches O N D w w' → ¬ O q → ¬ N q → stat w' q = Some (File c) →
  stat w q = Some (File c).
Proof. intros H HO HN Hq. touch_cases H q. Qed.

Lemma touches_none w w' q :
  touches O N D w w' → ¬ O q → ¬ N q → ¬ D q → stat w q = None →
  stat w' q = None.
Proof. intros H HO HN HD Hq. touch_cases H q. Qed.

Lemma frames_ret {A} (a : A) : frames O N D (ret a).
Proof. intros w. apply touches_refl. Qed.

Lemma frames_bind {A B} (m : M A) (f : A → M B) :
  frames O N D m → (∀ a, frames O N D (f a)) → frames O N D (m ≫= f).
Proof.
  intros Hm Hf w. rewrite bind_unfold. specialize (Hm w).
  destruct (m w) as [[a|e|c] w1]; simpl in *; [|done..].
  eapply touches_trans; [exact Hm|apply Hf].
Qed.

Lemma frames_for_each {A} (l : list A) (body : A → M unit) :
  (∀ x, x ∈ l → frames O N D (body x)) → frames O N D (for_each l body).
Proof.
  induction l as [|x l IH]; intros H; simpl.
  - apply frames_ret.
  - apply frames_bind; [apply H; left|]. intros _. apply IH.
    intros y Hy. apply H. by right.
Qed.

Lemma frames_path_exists p : frames O N D (path_exists p).
Proof. intros w. apply touches_refl. Qed.

Lemma frames_iterdir p : frames O N D (iterdir p).
Proof.
  intros w. unfold iterdir. destruct (stat w p) as [[c|]|]; apply touches_refl.
Qed.

Lemma frames_print line : frames O N D (print line).
Proof. intros w. by apply touches_same_files. Qed.

Lemma frames_sys_exit {A} c : frames O N D (@sys_exit A c).
Proof. intros w. apply touches_refl. Qed.

Lemma frames_os_mkdir p : D p → frames O N D (os_mkdir p).
Proof.
  intros HD w. unfold os_mkdir.
  destruct (stat w (parent p)) as [[c|]|]; simpl; try apply touches_refl.
  destruct (stat w p) as [n|] eqn:Hp; simpl; [apply touches_refl|].
  intros q. rewrite stat_insert by (apply (stat_not_anchor w); congruence).
  case_decide; subst; [right; left; done|by left].
Qed.

Lemma frames_mkdir_aux n p parents exist_ok :
  (∀ q, q `prefix_of` p → D q) → frames O N D (mkdir_aux n p parents exist_ok).
Proof.
  revert p parents exist_ok.
  induction n as [|n IH]; intros p parents exist_ok HD w;
    pose proof (frames_os_mkdir p (HD p (reflexivity p)) w) as H1; simpl;
    destruct (os_mkdir p w) as [[[]|[[] f]|c] w1]; simpl in *;
    repeat case_match; simpl; try done.
  eapply touches_trans; [exact H1|]. apply frames_bind.
  - apply IH. intros q Hq. apply HD. etrans; [exact Hq|apply parent_prefix].
  - intros _. by apply IH.
Qed.

Lemma frames_mkdir p parents exist_ok :
  (∀ q, q `prefix_of` p → D q) → frames O N D (mkdir p parents exist_ok).
Proof. apply frames_mkdir_aux. Qed.

Lemma touches_write_text p content w :
  ((∃ c, stat w p = Some (File c)) → O p) → (stat w p = None → N p) →
  touches O N D w (write_text p content w).2.
Proof.
  intros HO HN. unfold write_text.
  destruct (stat w (parent p)) as [[c|]|]; simpl; try apply touches_refl.
  destruct (stat w p) as [[c|]|] eqn:Hp; simpl; try apply touches_refl.
  - intros q. rewrite stat_insert by (apply (stat_not_anchor w); congruence).
    case_decide; subst; [|by left]. right; right; left. eauto 10.
  - intros q. rewrite stat_insert by (apply (stat_not_anchor w); congruence).
    case_decide; subst; [|by left]. right; right; right. eauto 10.
Qed.

Lemma frames_write_file p content force :
  (force = true → O p) → N p → (∀ q, q `prefix_of` parent p → D q) →
  frames O N D (write_file p content force).
Proof.
  intros HO HN HD. unfold write_file.
  apply frames_bind; [by apply frames_mkdir|]. intros _ w.
  rewrite bind_unfold. simpl.
  destruct (bool_decide (is_Some (stat w p))) eqn:He, force; simpl;
    try apply touches_refl; apply touches_write_text; auto.
  - intros [c Hc]. apply bool_decide_eq_false in He. rewrite Hc in He.
    destruct He. eauto.
Qed.

Lemma frames_write_init d force :
  (force = true → O (marker d)) → N (marker d) →
  frames O N D (write_init d force).
Proof.
  intros HO HN w. unfold write_init. fold (marker d).
  rewrite bind_unfold. simpl.
  destruct (bool_decide (is_Some (stat w (marker d)))) eqn:He, force; simpl;
    try apply touches_refl; apply touches_write_text; auto.
  - intros [c Hc]. apply bool_decide_eq_false in He. rewrite Hc in He.
    destruct He. eauto.
Qed.

End touches_lemmas.

Lemma touches_mono (O N D O' N' D' : path → Prop) w w' :
  (∀ q, O q → O' q) → (∀ q, N q → N' q) → (∀ q, D q → D' q) →
  touches O N D w w' → touches O' N' D' w w'.
Proof.
  intros HO HN HD H q.
  destruct (H q) as [?|[(?&?&?)|[(?&?&?)|(?&?&?)]]]; eauto 10.
Qed.

Lemma frames_mono (O N D O' N' D' : path → Prop) {A} (m : M A) :
  (∀ q, O q → O' q) → (∀ q, N q → N' q) → (∀ q, D q → D' q) →
  frames O N D m → frames O' N' D' m.
Proof. intros HO HN HD H w. eapply touches_mono; eauto. Qed.

Lemma persists_mkdir_aux n p parents exist_ok :
  frames anywhere anywhere anywhere (mkdir_aux n p parents exist_ok).
Proof. by apply frames_mkdir_aux. Qed.

Lemma persists_write_file p content force :
  frames anywhere anywhere anywhere (write_file p content force).
Proof. by apply frames_write_file. Qed.

Lemma persists_write_init d force :
  frames anywhere anywhere anywhere (write_init d force).
Proof. by apply frames_write_init. Qed.

(** ** What a successful call establishes *)

Lemma os_mkdir_ok p w w' :
  os_mkdir p w = (Ok tt, w') → stat w' p = Some Dir.
Proof.
  unfold os_mkdir. destruct (stat w (parent p)) as [[c|]|]; try done.
  destruct (stat w p) as [n|] eqn:Hp; try done.
  intros [= <-]. rewrite stat_insert by (apply (stat_not_anchor w); congruence).
  by rewrite decide_True.
Qed.

Lemma mkdir_aux_ok n p parents exist_ok w w' :
  mkdir_aux n p parents exist_ok w = (Ok tt, w') → stat w' p = Some Dir.
Proof.
  revert p parents exist_ok w w'.
  induction n as [|n IH]; intros p parents exist_ok w w'; simpl;
    destruct (os_mkdir p w) as [[[]|[[] f]|c] w1] eqn:H1;
    repeat case_match; try done;
    try (intros [= <-]; by eapply os_mkdir_ok);
    try (intros [= <-];
         match goal with
         | H : _ || negb (bool_decide _) = false |- _ =>
             apply orb_false_iff in H as [_ H];
             apply negb_false_iff, bool_decide_eq_true in H; exact H
         end).
  intros (_ & w2 & _ & H2)%bind_ok. by eapply IH.
Qed.

Lemma mkdir_ok p parents exist_ok w w' :
  mkdir p parents exist_ok w = (Ok tt, w') → stat w' p = Some Dir.
Proof. apply mkdir_aux_ok. Qed.

Lemma write_text_ok p content w w' :
  write_text p content w = (Ok tt, w') → stat w' p = Some (File content).
Proof.
  unfold write_text. destruct (stat w (parent p)) as [[c|]|]; try done.
  destruct (stat w p) as [[c|]|] eqn:Hp; try done;
    intros [= <-]; rewrite stat_insert by (apply (stat_not_anchor w); congruence);
    by rewrite decide_True.
Qed.

Lemma not_prefix_parent (p : path) : is_anchor p = false → ¬ p `prefix_of` parent p.
Proof.
  intros Ha Hpre. apply prefix_length in Hpre.
  assert (parent p ≠ p) as Hne.
  { unfold parent. rewrite Ha. destruct p as [|x p] using rev_ind; [done|].
    rewrite removelast_last. intros E. apply (f_equal length) in E.
    rewrite length_app in E. simpl in E. lia. }
  apply parent_length in Hne. lia.
Qed.

Lemma write_file_ok p content force w w' :
  write_file p content force w = (Ok tt, w') →
  is_Some (stat w' p)
  ∧ (force = true ∨ stat w p = None → stat w' p = Some (File content)).
Proof.
  unfold write_file. intros ([] & w1 & Hmk & H)%bind_ok.
  rewrite bind_unfold in H. simpl in H.
  assert (stat w p = None → stat w1 p = None) as Hnone.
  { intros Hp.
    pose proof (frames_mkdir (λ _, False) (λ _, False)
                  (λ q, q `prefix_of` parent p) (parent p) true true
                  (λ q Hq, Hq) w) as Ht.
    rewrite Hmk in Ht. eapply touches_none; [exact Ht|tauto..| |exact Hp].
    apply not_prefix_parent. unfold stat in Hp. by destruct (is_anchor p). }
  destruct (bool_decide (is_Some (stat w1 p))) eqn:He; simpl in H.
  - apply bool_decide_eq_true in He. destruct force; simpl in H.
    + apply write_text_ok in H. rewrite H. eauto.
    + injection H as <-. split; [done|]. intros [?|Hp]; [done|].
      rewrite (Hnone Hp) in He. by destruct He.
  - apply write_text_ok in H. rewrite H. eauto.
Qed.

Lemma write_file_ok_parent p content force w w' :
  write_file p content force w = (Ok tt, w') → stat w' (parent p) = Some Dir.
Proof.
  unfold write_file. intros ([] & w1 & Hmk%mkdir_ok & H)%bind_ok.
  eapply touches_dir; [|exact Hmk].
  assert (frames anywhere anywhere anywhere
            (e ← path_exists p;
             if e && negb force then ret tt else write_text p content)) as Hf.
  { apply frames_bind; [apply frames_path_exists|]. intros e w0.
    destruct (e && negb force); [apply touches_refl|].
    by apply touches_write_text. }
  specialize (Hf w1). by rewrite H in Hf.
Qed.

Lemma write_init_ok d force w w' :
  write_init d force w = (Ok tt, w') →
  is_Some (stat w' (marker d))
  ∧ (force = true ∨ stat w (marker d) = None →
     stat w' (marker d) = Some (File init_content)).
Proof.
  unfold write_init. fold (marker d). rewrite bind_unfold. simpl.
  destruct (bool_decide (is_Some (stat w (marker d)))) eqn:He; simpl.
  - apply bool_decide_eq_true in He. destruct force; simpl.
    + intros H%write_text_ok. rewrite H. eauto.
    + intros [= <-]. split; [done|]. intros [?|Hp]; [done|].
      rewrite Hp in He. by destruct He.
  - intros H%write_text_ok. rewrite H. eauto.
Qed.

(** ** [sys.exit] is only in the root guard *)

Lemma never_exits_ret {A} (a : A) : never_exits (ret a).
Proof. by intros w c. Qed.

Lemma never_exits_bind {A B} (m : M A) (f : A → M B) :
  never_exits m → (∀ a, never_exits (f a)) → never_exits (m ≫= f).
Proof.
  intros Hm Hf w c. rewrite bind_unfold. specialize (Hm w).
  destruct (m w) as [[a|e|c'] w1]; simpl in *; [apply Hf|done|].
  by destruct (Hm c').
Qed.

Lemma never_exits_for_each {A} (l : list A) (body : A → M unit) :
  (∀ x, never_exits (body x)) → never_exits (for_each l body).
Proof.
  intros H. induction l as [|x l IH]; simpl.
  - apply never_exits_ret.
  - by apply never_exits_bind.
Qed.

Lemma never_exits_os_mkdir p : never_exits (os_mkdir p).
Proof. intros w c. unfold os_mkdir. by repeat case_match. Qed.

Lemma never_exits_mkdir_aux n p parents exist_ok :
  never_exits (mkdir_aux n p parents exist_ok).
Proof.
  revert p parents exist_ok.
  induction n as [|n IH]; intros p parents exist_ok w c;
    pose proof (never_exits_os_mkdir p w) as H1; simpl;
    destruct (os_mkdir p w) as [[[]|[[] f]|c'] w1]; simpl in *;
    try (by destruct (H1 c')); repeat case_match; simpl; try done.
  by apply never_exits_bind.
Qed.

Lemma never_exits_write_text p content : never_exits (write_text p content).
Proof. intros w c. unfold write_text. by repeat case_match. Qed.

Lemma never_exits_write_file p content force :
  never_exits (write_file p content force).
Proof.
  unfold write_file. apply never_exits_bind; [apply never_exits_mkdir_aux|].
  intros _. apply never_exits_bind; [done|]. intros e.
  destruct (e && negb force); [apply never_exits_ret|apply never_exits_write_text].
Qed.

Lemma never_exits_write_init d force : never_exits (write_init d force).
Proof.
  unfold write_init. apply never_exits_bind; [done|]. intros e.
  destruct (negb e || force); [apply never_exits_write_text|apply never_exits_ret].
Qed.

Lemma never_exits_make_dirs root : never_exits (make_dirs root).
Proof.
  apply never_exits_for_each. intros d.
  apply never_exits_bind; [apply never_exits_mkdir_aux|].
  intros _. apply never_exits_write_init.
Qed.

Lemma never_exits_write_all l force : never_exits (write_all l force).
Proof. apply never_exits_for_each. intros a. apply never_exits_write_file. Qed.

(** ** [scaffold] is the sequence of its phases *)

Lemma write_all_then (l : list (path * string)) force (k : M unit) w :
  (write_all l force;; k) w
  = foldr (λ a k', write_file a.1 a.2 force;; k') k l w.
Proof.
  revert w. induction l as [|a l IH]; intros w; [done|].
  unfold write_all in *. simpl. rewrite bind_assoc.
  rewrite !(bind_unfold (write_file _ _ _)).
  by destruct (write_file a.1 a.2 force w) as [[[]|e|c] w1].
Qed.

(** The root guard, case by case. *)
Lemma root_guard_spec root force w :
  root_guard root force w =
    match stat w root with
    | None => (Ok tt, w)
    | Some (File _) => (Raised (OSError ENOTDIR root), w)
    | Some Dir =>
        if any (entries w root) && negb force
        then (Exited 1, printed (guard_message root) w)
        else (Ok tt, w)
    end.
Proof.
  unfold root_guard. rewrite bind_unfold. simpl.
  destruct (stat w root) as [[c|]|] eqn:Hroot.
  - rewrite bool_decide_eq_true_2 by eauto.
    rewrite bind_unfold, bind_unfold. unfold iterdir. by rewrite Hroot.
  - rewrite bool_decide_eq_true_2 by eauto.
    rewrite bind_unfold, bind_unfold. unfold iterdir. rewrite Hroot. simpl.
    by destruct (any (entries w root) && negb force).
  - rewrite bool_decide_eq_false_2 by (by intros [? ?]). done.
Qed.

Lemma scaffold_phases project_path project_name force w :
  let root := root_of project_path project_name in
  scaffold project_path project_name force w
  = (scaffold_upto root force (catalog root project_name);;
     print (ok_message root)) w.
Proof.
  intros root. unfold scaffold_upto.
  rewrite (bind_unfold (root_guard root force ≫= _)).
  rewrite (bind_unfold (root_guard root force)), root_guard_spec.
  unfold scaffold. subst root. unfold root_of.
  set (root := Path project_path </> project_name).
  rewrite (bind_unfold (path_exists root)). simpl.
  assert (∀ w1, (for_each (dirs root) (λ d, mkdir d true true;; write_init d false);;
             foldr (λ a k', write_file a.1 a.2 force;; k') (print (ok_message root))
               (catalog root project_name)) w1
          = match (make_dirs root;; write_all (catalog root project_name) force) w1 with
            | (Ok _, w') => print (ok_message root) w'
            | (Raised e, w') => (Raised e, w')
            | (Exited c, w') => (Exited c, w')
            end) as Hbody.
  { intros w1. fold (make_dirs root). rewrite !(bind_unfold (make_dirs root)).
    destruct (make_dirs root w1) as [[[]|e|c] w2]; [|done..].
    rewrite <- write_all_then. apply bind_unfold. }
  destruct (stat w root) as [[c|]|] eqn:Hroot.
  - rewrite bool_decide_eq_true_2 by eauto.
    rewrite !bind_unfold. unfold iterdir. by rewrite Hroot.
  - rewrite bool_decide_eq_true_2 by eauto.
    rewrite !bind_unfold. unfold iterdir. rewrite Hroot. simpl.
    destruct (any (entries w root) && negb force); [done|]. apply Hbody.
  - rewrite bool_decide_eq_false_2 by (by intros [? ?]).
    rewrite bind_unfold. simpl. apply Hbody.
Qed.

(** ** The paths of a run, relative to the root *)

(** Rewrites every [p </> "literal"] into [p ++ parts]. *)
Ltac norm_paths :=
  repeat match goal with
  | |- context [?p </> ?s] =>
      let v := eval vm_compute in (Path s) in
      rewrite (truediv_relative p s eq_refl); change (Path s) with v
  end;
  rewrite <- ?app_assoc; cbn [app].

Lemma dirs_rel root : dirs root = (root ++.) <$> dir_rels.
Proof. unfold dirs. cbn [fmap list_fmap]. by norm_paths. Qed.

Lemma marker_paths_rel root : marker_paths root = (root ++.) <$> marker_rels.
Proof.
  unfold marker_paths, dirs, marker. cbn [fmap list_fmap]. by norm_paths.
Qed.

Lemma artifact_paths_rel root name :
  artifact_paths root name = (root ++.) <$> artifact_rels.
Proof.
  unfold artifact_paths, catalog. cbn [fmap list_fmap fst]. by norm_paths.
Qed.

Lemma mkdir_targets_rel root name :
  mkdir_targets root name = (root ++.) <$> target_rels.
Proof.
  unfold mkdir_targets. rewrite dirs_rel.
  unfold artifact_paths, catalog. cbn [fmap list_fmap fst]. norm_paths.
  by rewrite !parent_app.
Qed.

Lemma artifact_marker_nodup root name :
  NoDup (artifact_paths root name ++ marker_paths root).
Proof.
  rewrite artifact_paths_rel, marker_paths_rel, <- fmap_app.
  apply (NoDup_fmap_2 _). compute_done.
Qed.

Lemma artifact_nodup root name : NoDup (artifact_paths root name).
Proof. by destruct (proj1 (NoDup_app _ _) (artifact_marker_nodup root name)). Qed.

Lemma artifact_not_marker root name q :
  q ∈ artifact_paths root name → q ∉ marker_paths root.
Proof.
  destruct (proj1 (NoDup_app _ _) (artifact_marker_nodup root name)) as (_&H&_).
  apply H.
Qed.

(** No artifact or marker path is on the way to a directory that the run
    makes. *)
Lemma written_not_makeable root name q :
  q ∈ artifact_paths root name ++ marker_paths root → ¬ makeable root name q.
Proof.
  rewrite artifact_paths_rel, marker_paths_rel, <- fmap_app.
  intros (r & -> & Hr)%list_elem_of_fmap (p & Hp & Hpre).
  rewrite mkdir_targets_rel in Hp. apply list_elem_of_fmap in Hp as (t & -> & Ht).
  apply prefix_app_inv in Hpre.
  assert (Forall (λ r, Forall (λ t, ¬ r `prefix_of` t) target_rels)
            (artifact_rels ++ marker_rels)) as H by compute_done.
  rewrite Forall_forall in H. specialize (H r Hr).
  rewrite Forall_forall in H. by apply (H t).
Qed.

(** What is made or written lies under the root, or is an ancestor of it. *)
Lemma makeable_around_root root name q :
  makeable root name q → q `prefix_of` root ∨ root `prefix_of` q.
Proof.
  intros (p & Hp & Hpre). rewrite mkdir_targets_rel in Hp.
  apply list_elem_of_fmap in Hp as (t & -> & Ht).
  destruct (prefix_weak_total q root (root ++ t)) as [?|?]; auto.
  by apply prefix_app_r.
Qed.

Lemma written_under_root root name q :
  q ∈ artifact_paths root name ++ marker_paths root → root `prefix_of` q.
Proof.
  rewrite artifact_paths_rel, marker_paths_rel, <- fmap_app.
  intros (r & -> & Hr)%list_elem_of_fmap. by apply prefix_app_r.
Qed.

(** ** The bounds of the phases *)

Section phase_frames.
Context (O N D : path → Prop).

Lemma frames_root_guard root force : frames O N D (root_guard root force).
Proof.
  intros w. rewrite root_guard_spec.
  destruct (stat w root) as [[c|]|]; try apply touches_refl.
  destruct (any (entries w root) && negb force); [|apply touches_refl].
  by apply touches_same_files.
Qed.

Lemma frames_dirs_loop (l : list path) :
  (∀ d, d ∈ l → N (marker d) ∧ ∀ q, q `prefix_of` d → D q) →
  frames O N D (for_each l (λ d, mkdir d true true;; write_init d false)).
Proof.
  intros H. apply frames_for_each. intros d Hd. destruct (H d Hd) as [HN HD].
  apply frames_bind; [by apply frames_mkdir|].
  intros _. by apply frames_write_init.
Qed.

Lemma frames_write_all (l : list (path * string)) force :
  (∀ a, a ∈ l →
     (force = true → O a.1) ∧ N a.1 ∧ ∀ q, q `prefix_of` parent a.1 → D q) →
  frames O N D (write_all l force).
Proof.
  intros H. apply frames_for_each. intros a Ha.
  destruct (H a Ha) as (HO & HN & HD). by apply frames_write_file.
Qed.

End phase_frames.

Lemma catalog_targets root name a q :
  a ∈ catalog root name → q `prefix_of` parent a.1 → makeable root name q.
Proof.
  intros Ha Hq. exists (parent a.1). split; [|done].
  unfold mkdir_targets. apply elem_of_app. right.
  apply list_elem_of_fmap_2. unfold artifact_paths. by apply list_elem_of_fmap_2.
Qed.

Lemma dirs_targets root name d q :
  d ∈ dirs root → q `prefix_of` d → makeable root name q.
Proof.
  intros Hd Hq. exists d. split; [|done].
  unfold mkdir_targets. apply elem_of_app. by left.
Qed.

(** [scaffold], up to the artifacts [l] of the catalog, within bounds that
    mention only [l]. *)
Lemma frames_scaffold_upto root name force l :
  l ⊆ catalog root name →
  frames (λ q, force = true ∧ q ∈ l.*1)
         (λ q, q ∈ l.*1 ∨ q ∈ marker_paths root)
         (makeable root name)
         (scaffold_upto root force l).
Proof.
  intros Hl. unfold scaffold_upto.
  apply frames_bind; [apply frames_root_guard|]. intros _.
  apply frames_bind; [|intros _].
  - apply frames_dirs_loop. intros d Hd. split.
    + right. by apply list_elem_of_fmap_2.
    + intros q. by apply dirs_targets.
  - apply frames_write_all. intros a Ha. split_and!.
    + intros ->. split; [done|]. by apply list_elem_of_fmap_2.
    + left. by apply list_elem_of_fmap_2.
    + intros q. apply catalog_targets. by apply Hl.
Qed.

(** The bounds of a whole run. *)
Lemma frames_scaffold project_path project_name force :
  let root := root_of project_path project_name in
  frames (overwritable root project_name force)
         (creatable root project_name)
         (makeable root project_name)
         (scaffold project_path project_name force).
Proof.
  intros root w. rewrite scaffold_phases. fold root.
  revert w. apply frames_bind; [|intros _; apply frames_print].
  apply (frames_scaffold_upto root project_name force). done.
Qed.

Lemma persists_scaffold project_path project_name force :
  frames anywhere anywhere anywhere (scaffold project_path project_name force).
Proof. eapply frames_mono; [..|apply frames_scaffold]; done. Qed.

(** ** What a successful run establishes *)

Lemma persists_dirs_loop (l : list path) :
  frames anywhere anywhere anywhere
    (for_each l (λ d, mkdir d true true;; write_init d false)).
Proof. by apply frames_dirs_loop. Qed.

Lemma persists_write_all l force :
  frames anywhere anywhere anywhere (write_all l force).
Proof. by apply frames_write_all. Qed.

Lemma dirs_loop_ok (l : list path) w w' :
  for_each l (λ d, mkdir d true true;; write_init d false) w = (Ok tt, w') →
  ∀ d, d ∈ l → stat w' d = Some Dir ∧ is_Some (stat w' (marker d)).
Proof.
  revert w. induction l as [|x l IH]; intros w H d Hd.
  { by apply elem_of_nil in Hd. }
  simpl in H. apply bind_ok in H as ([] & w1 & Hx & Hrest).
  apply elem_of_cons in Hd as [->|Hd]; [|by eapply IH].
  apply bind_ok in Hx as ([] & w0 & Hmk & Hinit).
  pose proof (persists_dirs_loop l w1) as Ht. rewrite Hrest in Ht.
  pose proof (persists_write_init x false w0) as Hti. rewrite Hinit in Hti.
  split.
  - eapply touches_dir; [exact Ht|]. eapply touches_dir; [exact Hti|].
    by eapply mkdir_ok.
  - eapply touches_exists; [exact Ht|]. by apply write_init_ok in Hinit as [? _].
Qed.

Lemma write_all_ok l force w w' :
  write_all l force w = (Ok tt, w') → ∀ a, a ∈ l → is_Some (stat w' a.1).
Proof.
  revert w. induction l as [|x l IH]; intros w H a Ha.
  { by apply elem_of_nil in Ha. }
  unfold write_all in H. simpl in H.
  apply bind_ok in H as ([] & w1 & Hx & Hrest).
  apply elem_of_cons in Ha as [->|Ha]; [|by eapply IH].
  pose proof (persists_write_all l force w1) as Ht.
  unfold write_all in Ht. rewrite Hrest in Ht.
  eapply touches_exists; [exact Ht|]. by apply write_file_ok in Hx as [? _].
Qed.

Lemma write_all_ok_parent l force w w' :
  write_all l force w = (Ok tt, w') →
  ∀ a, a ∈ l → stat w' (parent a.1) = Some Dir.
Proof.
  revert w. induction l as [|x l IH]; intros w H a Ha.
  { by apply elem_of_nil in Ha. }
  unfold write_all in H. simpl in H.
  apply bind_ok in H as ([] & w1 & Hx & Hrest).
  apply elem_of_cons in Ha as [->|Ha]; [|by eapply IH].
  pose proof (persists_write_all l force w1) as Ht.
  unfold write_all in Ht. rewrite Hrest in Ht.
  eapply touches_dir; [exact Ht|]. by eapply write_file_ok_parent.
Qed.

(** A successful run, phase by phase. *)
Lemma scaffold_ok_inv project_path project_name force w w' :
  let root := root_of project_path project_name in
  scaffold project_path project_name force w = (Ok tt, w') →
  ∃ w1 w2,
    root_guard root force w = (Ok tt, w)
    ∧ make_dirs root w = (Ok tt, w1)
    ∧ write_all (catalog root project_name) force w1 = (Ok tt, w2)
    ∧ w' = printed (ok_message root) w2.
Proof.
  intros root. rewrite scaffold_phases. fold root. unfold scaffold_upto.
  intros ([] & w2 & H & Hp)%bind_ok.
  apply bind_ok in H as ([] & w0 & Hg & H).
  apply bind_ok in H as ([] & w1 & Hd & Hw).
  assert (w0 = w) as ->.
  { rewrite root_guard_spec in Hg. repeat case_match; congruence. }
  exists w1, w2. split_and!; try done. by injection Hp as <-.
Qed.

Lemma scaffold_upto_app root force pre a post w :
  scaffold_upto root force (pre ++ a :: post) w
  = (scaffold_upto root force pre;;
     write_file a.1 a.2 force;; write_all post force) w.
Proof.
  unfold scaffold_upto. rewrite !bind_assoc.
  rewrite !(bind_unfold (root_guard root force)).
  destruct (root_guard root force w) as [[[]|e|c] w0]; [|done..].
  rewrite bind_assoc. rewrite !(bind_unfold (make_dirs root)).
  destruct (make_dirs root w0) as [[[]|e|c] w1]; [|done..].
  unfold write_all. by rewrite for_each_app.
Qed.

(** An artifact that the run writes (always under [force], otherwise when
    its path was free) ends with its rendered content. *)
Lemma scaffold_renders project_path project_name force w w' p c :
  let root := root_of project_path project_name in
  scaffold project_path project_name force w = (Ok tt, w') →
  (p, c) ∈ catalog root project_name →
  force = true ∨ stat w p = None →
  stat w' p = Some (File c).
Proof.
  intros root Hok Hin Hwr.
  rewrite scaffold_phases in Hok. fold root in Hok.
  apply bind_ok in Hok as ([] & w3 & Hok & Hp). injection Hp as <-.
  change (stat w3 p = Some (File c)).
  destruct (list_elem_of_split _ _ Hin) as (pre & post & Hcat).
  rewrite Hcat, scaffold_upto_app in Hok.
  apply bind_ok in Hok as ([] & w1 & Hpre & Hok).
  apply bind_ok in Hok as ([] & w2 & Hw & Hpost). simpl in Hw.
  pose proof (artifact_nodup root project_name) as Hnd.
  unfold artifact_paths in Hnd. rewrite Hcat, fmap_app, fmap_cons in Hnd.
  apply NoDup_app in Hnd as (_ & Hpre_p & [Hpost_p _]%NoDup_cons). simpl in *.
  assert (p ∈ artifact_paths root project_name) as Hp.
  { unfold artifact_paths. by apply (list_elem_of_fmap_2 fst _ (p, c)). }
  (* the rendered content is there after the artifact's own step *)
  assert (stat w2 p = Some (File c)) as H2.
  { apply write_file_ok in Hw as [_ Hw]. apply Hw.
    destruct Hwr as [?|Hnone]; [by left|right].
    pose proof (frames_scaffold_upto root project_name force pre) as Ht.
    specialize (Ht ltac:(intros x Hx; rewrite Hcat; apply elem_of_app; by left) w).
    rewrite Hpre in Ht.
    eapply touches_none; [exact Ht|..|exact Hnone].
    - intros [_ Hq]. apply (Hpre_p p); [done|left].
    - intros [Hq|Hq]; [apply (Hpre_p p); [done|left]|].
      by apply (artifact_not_marker root project_name p).
    - apply written_not_makeable, elem_of_app. by left. }
  (* and the later artifacts do not touch it *)
  pose proof (frames_write_all (λ q, q ∈ post.*1) anywhere anywhere post force) as Ht.
  specialize (Ht ltac:(intros a Ha; split_and!; try done;
                       intros _; by apply list_elem_of_fmap_2) w2).
  rewrite Hpost in Ht. eapply touches_file_kept; [exact Ht|exact Hpost_p|exact H2].
Qed.

Lemma entries_elem w p q :
  is_anchor q = false → parent q = p → is_Some (stat w q) → q ∈ entries w p.
Proof.
  intros Ha Hp [n Hq]. unfold entries. apply list_elem_of_filter. split; [done|].
  unfold stat in Hq. rewrite Ha in Hq.
  apply (list_elem_of_fmap_2 fst _ (q, n)). by apply elem_of_map_to_list.
Qed.

(** After a successful run the root is a directory with [src] in it. *)
Lemma scaffold_ok_root project_path project_name force w w' :
  let root := root_of project_path project_name in
  scaffold project_path project_name force w = (Ok tt, w') →
  stat w' root = Some Dir ∧ entries w' root ≠ [].
Proof.
  intros root Hok.
  destruct (scaffold_ok_inv _ _ _ _ _ Hok) as (w1 & w2 & Hg & Hd & Hw & ->).
  fold root in Hg, Hd, Hw.
  assert (stat w1 (root ++ ["src"]) = Some Dir) as Hsrc.
  { unfold make_dirs in Hd. eapply dirs_loop_ok; [exact Hd|].
    rewrite dirs_rel. by apply (list_elem_of_fmap_2 (root ++.) _ ["src"]), elem_of_cons; left. }
  assert (parent (root ++ ["src"]) = root) as Hpar.
  { rewrite parent_app by done. apply app_nil_r. }
  (* the first artifact lies in the root, and [write_file] makes its parent *)
  assert (stat w2 root = Some Dir) as Hroot.
  { assert (root ++ ["pyproject.toml"] ∈ artifact_paths root project_name) as Hin.
    { rewrite artifact_paths_rel.
      by apply (list_elem_of_fmap_2 (root ++.) _ ["pyproject.toml"]), elem_of_cons; left. }
    apply list_elem_of_fmap in Hin as (a & Ea & Ha).
    pose proof (write_all_ok_parent _ _ _ _ Hw a Ha) as H.
    rewrite <- Ea, parent_app in H by done. by rewrite app_nil_r in H. }
  pose proof (persists_write_all (catalog root project_name) force w1) as Ht.
  rewrite Hw in Ht.
  split; [exact Hroot|].
  intros Hnil. apply (elem_of_nil (root ++ ["src"])). rewrite <- Hnil.
  apply entries_elem; [by apply is_anchor_app|done|].
  change (is_Some (stat w2 (root ++ ["src"]))).
  eapply touches_exists; [exact Ht|]. by rewrite Hsrc.
Qed.

(** The tree after a successful run. *)
Lemma run_complete project_path project_name force w w' :
  scaffold project_path project_name force w = (Ok tt, w') →
  (∀ d, d ∈ dirs (root_of project_path project_name) →
        stat w' d = Some Dir
        ∧ parent (marker d) = d
        ∧ is_Some (stat w' (marker d)))
  ∧ (∀ p, p ∈ artifact_paths (root_of project_path project_name) project_name →
          is_Some (stat w' p))
  ∧ (∀ q, q ∈ artifact_paths (root_of project_path project_name) project_name
              ++ marker_paths (root_of project_path project_name) →
          stat w q ≠ Some Dir → ∃ c, stat w' q = Some (File c)).
Proof.
  intros Hok. set (root := root_of project_path project_name).
  destruct (scaffold_ok_inv _ _ _ _ _ Hok) as (w1 & w2 & Hg & Hd & Hw & ->).
  fold root in Hg, Hd, Hw.
  pose proof (persists_write_all (catalog root project_name) force w1) as Ht.
  rewrite Hw in Ht. simpl in Ht.
  assert (∀ d, d ∈ dirs root →
            stat w2 d = Some Dir ∧ parent (marker d) = d
            ∧ is_Some (stat w2 (marker d))) as Hdirs.
  { intros d Hin. destruct (dirs_loop_ok _ _ _ Hd d Hin) as [H1 H2].
    split_and!; [by eapply touches_dir| |by eapply touches_exists].
    rewrite dirs_rel in Hin. apply list_elem_of_fmap in Hin as (r & -> & Hr).
    unfold marker. rewrite truediv_relative by done.
    change (Path "__init__.py") with ["__init__.py"].
    rewrite parent_app by done. apply app_nil_r. }
  assert (∀ p, p ∈ artifact_paths root project_name → is_Some (stat w2 p)) as Harts.
  { intros p (a & -> & Ha)%list_elem_of_fmap. by eapply write_all_ok. }
  split_and!; [exact Hdirs|exact Harts|].
  intros q Hq Hnd. change (∃ c, stat w2 q = Some (File c)).
  assert (is_Some (stat w2 q)) as [n Hn].
  { apply elem_of_app in Hq as [Hq|(d & -> & Hin)%list_elem_of_fmap]; [by apply Harts|].
    by apply Hdirs. }
  destruct n as [c|]; [by exists c|]. destruct Hnd.
  pose proof (frames_scaffold project_path project_name force w) as Hf.
  rewrite Hok in Hf. simpl in Hf.
  eapply touches_not_dir; [exact Hf| |exact Hn].
  by apply written_not_makeable.
Qed.

(** ** Runs that succeed *)

Lemma parent_fixed (p : path) : parent p = p → is_anchor p = true.
Proof.
  destruct (is_anchor p) eqn:Ha; [done|]. intros E.
  pose proof (not_prefix_parent p Ha) as H. rewrite E in H. by destruct H.
Qed.

(** [mkdir] without the recursion: the parent is there. *)
Lemma mkdir_aux_here n p parents w :
  stat w (parent p) = Some Dir → (∀ c, stat w p ≠ Some (File c)) →
  ∃ w', mkdir_aux n p parents true w = (Ok tt, w').
Proof.
  intros Hpar Hnf.
  assert (∃ r w', os_mkdir p w = (r, w')
                  ∧ (r = Ok tt ∨ (r = Raised (OSError EEXIST p) ∧ w' = w
                                  ∧ stat w p = Some Dir))) as (r & w' & H1 & Hr).
  { unfold os_mkdir. rewrite Hpar. destruct (stat w p) as [[c|]|] eqn:Hp.
    - by destruct (Hnf c).
    - eauto 10.
    - eauto 10. }
  destruct Hr as [->|(-> & -> & Hd)]; destruct n; simpl; rewrite H1; eauto.
  - by rewrite bool_decide_eq_true_2; eauto.
  - by rewrite bool_decide_eq_true_2; eauto.
Qed.

(** [mkdir(parents=True, exist_ok=True)] succeeds when no file is on the
    way; the fuel [length p] is enough. *)
Lemma mkdir_aux_succeeds n p w :
  length p ≤ n →
  (∀ q c, q `prefix_of` p → stat w q ≠ Some (File c)) →
  ∃ w', mkdir_aux n p true true w = (Ok tt, w').
Proof.
  revert p w. induction n as [|n IH]; intros p w Hlen Hnf.
  - apply mkdir_aux_here; [|intros c; by apply Hnf].
    destruct p; [|simpl in Hlen; lia]. done.
  - destruct (stat w (parent p)) as [[c|]|] eqn:Hpar.
    + destruct (Hnf (parent p) c (parent_prefix p)). done.
    + apply mkdir_aux_here; [done|]. intros c; by apply Hnf.
    + assert (parent p ≠ p) as Hne.
      { intros E. pose proof (parent_fixed p E) as Ha.
        by rewrite E, (stat_anchor w p Ha) in Hpar. }
      assert (os_mkdir p w = (Raised (OSError ENOENT p), w)) as H1.
      { unfold os_mkdir. rewrite Hpar, lookup_errno_clear; [done|].
        intros q c Hq. apply Hnf. etrans; [exact Hq|apply parent_prefix]. }
      simpl. rewrite H1. simpl. rewrite bool_decide_eq_false_2 by done.
      destruct (IH (parent p) w) as (w1 & Hok1).
      { apply parent_length in Hne. lia. }
      { intros q c Hq. apply Hnf. etrans; [exact Hq|apply parent_prefix]. }
      rewrite bind_unfold, Hok1. apply mkdir_aux_here.
      * by eapply mkdir_aux_ok.
      * intros c Hc.
        pose proof (frames_mkdir_aux (λ _, False) (λ _, False)
                      (λ q, q `prefix_of` parent p) n (parent p) true true
                      (λ q Hq, Hq) w) as Ht.
        rewrite Hok1 in Ht. simpl in Ht.
        eapply (Hnf p c); [done|].
        eapply touches_file_back; [exact Ht|tauto..|exact Hc].
Qed.

Lemma mkdir_succeeds p w :
  (∀ q c, q `prefix_of` p → stat w q ≠ Some (File c)) →
  ∃ w', mkdir p true true w = (Ok tt, w').
Proof. by apply mkdir_aux_succeeds. Qed.

Lemma marker_parent d : parent (marker d) = d.
Proof.
  unfold marker. rewrite truediv_relative by done.
  change (Path "__init__.py") with ["__init__.py"].
  rewrite parent_app by done. apply app_nil_r.
Qed.

Lemma write_text_succeeds p content w :
  stat w (parent p) = Some Dir → stat w p ≠ Some Dir →
  ∃ w', write_text p content w = (Ok tt, w').
Proof.
  intros Hpar Hnd. unfold write_text. rewrite Hpar.
  destruct (stat w p) as [[c|]|]; eauto. by destruct Hnd.
Qed.

Lemma write_init_succeeds d w :
  stat w d = Some Dir → ∃ w', write_init d false w = (Ok tt, w').
Proof.
  intros Hd. unfold write_init. fold (marker d). rewrite bind_unfold. simpl.
  destruct (bool_decide (is_Some (stat w (marker d)))) eqn:He; simpl; [eauto|].
  apply bool_decide_eq_false in He.
  apply write_text_succeeds; [by rewrite marker_parent|].
  intros E. rewrite E in He. destruct He. eauto.
Qed.

Lemma write_file_succeeds p content force w :
  (∀ q c, q `prefix_of` parent p → stat w q ≠ Some (File c)) →
  stat w p ≠ Some Dir →
  ∃ w', write_file p content force w = (Ok tt, w').
Proof.
  intros Hnf Hnd. unfold write_file.
  destruct (mkdir_succeeds (parent p) w Hnf) as (w1 & Hmk).
  rewrite bind_unfold, Hmk, bind_unfold. simpl.
  destruct (bool_decide (is_Some (stat w1 p)) && negb force); [eauto|].
  apply write_text_succeeds; [by eapply mkdir_ok|].
  intros Hd. apply Hnd.
  pose proof (frames_mkdir (λ _, False) (λ _, False)
                (λ q, q `prefix_of` parent p) (parent p) true true
                (λ q Hq, Hq) w) as Ht.
  rewrite Hmk in Ht. simpl in Ht.
  eapply touches_not_dir; [exact Ht| |exact Hd].
  apply not_prefix_parent. destruct (is_anchor p) eqn:Ha; [|done].
  destruct Hnd. by apply stat_anchor.
Qed.

Lemma run_invariant_touches root name (O N : path → Prop) w w' :
  (∀ q, O q → q ∈ artifact_paths root name ++ marker_paths root) →
  (∀ q, N q → q ∈ artifact_paths root name ++ marker_paths root) →
  touches O N (makeable root name) w w' →
  run_invariant root name w → run_invariant root name w'.
Proof.
  intros HO HN Ht [Hnf Hnd]. split.
  - intros q c Hq Hc. apply (Hnf q c Hq).
    eapply touches_file_back; [exact Ht| | |exact Hc].
    + intros H%HO. by apply (written_not_makeable root name q).
    + intros H%HN. by apply (written_not_makeable root name q).
  - intros q Hq Hd. apply (Hnd q Hq).
    eapply touches_not_dir; [exact Ht| |exact Hd].
    apply written_not_makeable, elem_of_app. by left.
Qed.

Lemma dirs_loop_succeeds root name (l : list path) w :
  l ⊆ dirs root → run_invariant root name w →
  ∃ w', for_each l (λ d, mkdir d true true;; write_init d false) w = (Ok tt, w')
        ∧ run_invariant root name w'.
Proof.
  revert w. induction l as [|d l IH]; intros w Hl Hinv; [by exists w|].
  assert (d ∈ dirs root) as Hd by (apply Hl; left).
  destruct (mkdir_succeeds d w) as (w0 & Hmk).
  { intros q c Hq. apply Hinv. by eapply dirs_targets. }
  destruct (write_init_succeeds d w0) as (w1 & Hinit); [by eapply mkdir_ok|].
  assert ((mkdir d true true;; write_init d false) w = (Ok tt, w1)) as Hbody.
  { by rewrite bind_unfold, Hmk. }
  assert (run_invariant root name w1) as Hinv1.
  { eapply (run_invariant_touches root name (λ _, False)
              (λ q, q ∈ marker_paths root)); [done| | |exact Hinv].
    - intros q Hq. apply elem_of_app. by right.
    - assert (frames (λ _, False) (λ q, q ∈ marker_paths root)
                (makeable root name)
                (mkdir d true true;; write_init d false)) as Hfr.
      { apply frames_bind.
        - apply frames_mkdir. intros q. by apply dirs_targets.
        - intros ?. apply frames_write_init; [done|].
          by apply list_elem_of_fmap_2. }
      specialize (Hfr w). by rewrite Hbody in Hfr. }
  destruct (IH w1) as (w' & Hrest & Hinv'); [|done|].
  { intros x Hx. apply Hl. by right. }
  exists w'. split; [|done]. simpl. by rewrite bind_unfold, Hbody.
Qed.

Lemma write_all_succeeds root name force (l : list (path * string)) w :
  l ⊆ catalog root name → run_invariant root name w →
  ∃ w', write_all l force w = (Ok tt, w') ∧ run_invariant root name w'.
Proof.
  revert w. induction l as [|a l IH]; intros w Hl Hinv; [by exists w|].
  assert (a ∈ catalog root name) as Ha by (apply Hl; left).
  assert (a.1 ∈ artifact_paths root name) as Hp by by apply list_elem_of_fmap_2.
  destruct (write_file_succeeds a.1 a.2 force w) as (w1 & Hw).
  { intros q c Hq. apply Hinv. by eapply catalog_targets. }
  { by apply Hinv. }
  assert (run_invariant root name w1) as Hinv1.
  { eapply (run_invariant_touches root name (λ q, q = a.1) (λ q, q = a.1));
      [| | |exact Hinv].
    - intros q ->. apply elem_of_app. by left.
    - intros q ->. apply elem_of_app. by left.
    - assert (frames (λ q, q = a.1) (λ q, q = a.1) (makeable root name)
                (write_file a.1 a.2 force)) as Hfr.
      { apply frames_write_file; [done|done|].
        intros q. by apply catalog_targets. }
      specialize (Hfr w). by rewrite Hw in Hfr. }
  destruct (IH w1) as (w' & Hrest & Hinv'); [|done|].
  { intros x Hx. apply Hl. by right. }
  exists w'. split; [|done]. unfold write_all in *. simpl.
  by rewrite bind_unfold, Hw.
Qed.

Lemma root_makeable root name : makeable root name root.
Proof.
  exists (root ++ ["src"]). split; [|by apply prefix_app_r].
  rewrite mkdir_targets_rel. apply (list_elem_of_fmap_2 (root ++.) _ ["src"]).
  by left.
Qed.

(** On a usable destination the run returns normally. *)
Lemma scaffold_succeeds project_path project_name force w :
  usable (root_of project_path project_name) project_name force w →
  (scaffold project_path project_name force w).1 = Ok tt.
Proof.
  set (root := root_of project_path project_name).
  intros (Hnf & Hnd & Hguard).
  assert (root_guard root force w = (Ok tt, w)) as Hg.
  { rewrite root_guard_spec. destruct (stat w root) as [[c|]|] eqn:Hroot.
    - destruct (Hnf root c (root_makeable root project_name) Hroot).
    - destruct Hguard as [-> | [Hn | ->]]; [by rewrite andb_false_r|done|done].
    - done. }
  destruct (dirs_loop_succeeds root project_name (dirs root) w)
    as (w1 & Hd & Hinv1); [done|done|].
  destruct (write_all_succeeds root project_name force
              (catalog root project_name) w1) as (w2 & Hw & _); [done|done|].
  rewrite scaffold_phases. fold root. unfold scaffold_upto.
  rewrite bind_unfold, bind_unfold, Hg, bind_unfold.
  fold (make_dirs root) in Hd. by rewrite Hd, Hw.
Qed.

(** ** The file system stays a tree *)

Lemma well_formed_insert w p n :
  well_formed w → is_anchor p = false →
  stat w (parent p) = Some Dir → stat w p ≠ Some Dir →
  well_formed (set_files <[p:=n]> w).
Proof.
  intros Hwf Ha Hpar Hnd q m Hq Hqa. simpl in Hq.
  assert (parent p ≠ p) as Hpp.
  { intros E. apply parent_fixed in E. congruence. }
  rewrite stat_insert by done.
  destruct (decide (q = p)) as [->|Hne].
  - by rewrite decide_False.
  - rewrite lookup_insert_ne in Hq by done.
    pose proof (Hwf q m Hq Hqa) as Hd. simpl in Hd.
    case_decide as E; [|done]. by rewrite E in Hd.
Qed.

Lemma keeps_tree_ret {A} (a : A) : keeps_tree (ret a).
Proof. by intros w. Qed.

Lemma keeps_tree_bind {A B} (m : M A) (f : A → M B) :
  keeps_tree m → (∀ a, keeps_tree (f a)) → keeps_tree (m ≫= f).
Proof.
  intros Hm Hf w Hwf. rewrite bind_unfold. specialize (Hm w Hwf).
  destruct (m w) as [[a|e|c] w1]; simpl in *; [by apply Hf|done..].
Qed.

Lemma keeps_tree_for_each {A} (l : list A) (body : A → M unit) :
  (∀ x, keeps_tree (body x)) → keeps_tree (for_each l body).
Proof.
  intros H. induction l as [|x l IH]; simpl.
  - apply keeps_tree_ret.
  - by apply keeps_tree_bind.
Qed.

Lemma keeps_tree_os_mkdir p : keeps_tree (os_mkdir p).
Proof.
  intros w Hwf. unfold os_mkdir.
  destruct (stat w (parent p)) as [[c|]|] eqn:Hpar; try done.
  destruct (stat w p) as [n|] eqn:Hp; [done|]. simpl.
  apply well_formed_insert; try done; [|congruence].
  apply (stat_not_anchor w). congruence.
Qed.

Lemma keeps_tree_mkdir_aux n p parents exist_ok :
  keeps_tree (mkdir_aux n p parents exist_ok).
Proof.
  revert p parents exist_ok.
  induction n as [|n IH]; intros p parents exist_ok w Hwf;
    pose proof (keeps_tree_os_mkdir p w Hwf) as H1; simpl;
    destruct (os_mkdir p w) as [[[]|[[] f]|c] w1]; simpl in *;
    repeat case_match; simpl; try done.
  by apply keeps_tree_bind.
Qed.

Lemma keeps_tree_write_text p content : keeps_tree (write_text p content).
Proof.
  intros w Hwf. unfold write_text.
  destruct (stat w (parent p)) as [[c|]|] eqn:Hpar; try done.
  destruct (stat w p) as [[c|]|] eqn:Hp; try done; simpl;
    (apply well_formed_insert; try done; [|congruence];
     apply (stat_not_anchor w); congruence).
Qed.

Lemma keeps_tree_write_file p content force :
  keeps_tree (write_file p content force).
Proof.
  unfold write_file. apply keeps_tree_bind; [apply keeps_tree_mkdir_aux|].
  intros _. apply keeps_tree_bind; [by intros w|]. intros e.
  destruct (e && negb force); [apply keeps_tree_ret|apply keeps_tree_write_text].
Qed.

Lemma keeps_tree_write_init d force : keeps_tree (write_init d force).
Proof.
  unfold write_init. apply keeps_tree_bind; [by intros w|]. intros e.
  destruct (negb e || force); [apply keeps_tree_write_text|apply keeps_tree_ret].
Qed.

Lemma keeps_tree_root_guard root force : keeps_tree (root_guard root force).
Proof. intros w Hwf. rewrite root_guard_spec. by repeat case_match. Qed.

Lemma keeps_tree_scaffold project_path project_name force :
  keeps_tree (scaffold project_path project_name force).
Proof.
  intros w. rewrite scaffold_phases. simpl. revert w.
  apply keeps_tree_bind; [|by intros _ w]. unfold scaffold_upto.
  apply keeps_tree_bind; [apply keeps_tree_root_guard|]. intros _.
  apply keeps_tree_bind.
  - apply keeps_tree_for_each. intros d.
    apply keeps_tree_bind; [apply keeps_tree_mkdir_aux|].
    intros _. apply keeps_tree_write_init.
  - intros _. apply keeps_tree_for_each. intros a. apply keeps_tree_write_file.
Qed.

(** The run when the root guard fires. *)
Lemma root_guard_fires project_path project_name w :
  stat w (root_of project_path project_name) = Some Dir →
  entries w (root_of project_path project_name) ≠ [] →
  ∃ w', scaffold project_path project_name false w = (Exited 1, w')
        ∧ files w' = files w
        ∧ stdout w'
          = stdout w ++ [guard_message (root_of project_path project_name)].
Proof.
  intros Hdir Hne. set (root := root_of project_path project_name) in *.
  exists (printed (guard_message root) w). split; [|done].
  rewrite scaffold_phases. fold root. unfold scaffold_upto.
  rewrite bind_unfold, bind_unfold, root_guard_spec, Hdir.
  by destruct (entries w root).
Qed.

(** * The claims *)

(** C2.  When the root [Path(project_path) / project_name] is a directory
    with at least one entry and [force] is false, [scaffold] prints the
    error line and leaves through [sys.exit(1)]; the file system is the
    one it started from. *)
Theorem root_guard_aborts project_path project_name w :
  stat w (root_of project_path project_name) = Some Dir →
  entries w (root_of project_path project_name) ≠ [] →
  ∃ w', scaffold project_path project_name false w = (Exited 1, w')
        ∧ files w' = files w
        ∧ stdout w'
          = stdout w ++ [guard_message (root_of project_path project_name)].
Proof. apply root_guard_fires. Qed.

Lemma root_guard_aborts_witness :
  ∃ w', scaffold "/tmp/out" "billing" false busy_world = (Exited 1, w')
        ∧ files w' = files busy_world
        ∧ stdout w'
          = stdout busy_world ++ [guard_message (root_of "/tmp/out" "billing")].
Proof.
  apply (root_guard_aborts "/tmp/out" "billing" busy_world).
  - vm_compute. reflexivity.
  - vm_compute. discriminate.
Defined.

(** C1, as the code has it.  A second run with [force = false] on the tree
    that a successful run produced stops at the root guard: it leaves
    through [sys.exit(1)], and the file system stays as the first run left
    it. *)
Theorem rerun_aborts project_path project_name force w :
  (scaffold project_path project_name force w).1 = Ok tt →
  ∃ w2, scaffold project_path project_name false
          (scaffold project_path project_name force w).2 = (Exited 1, w2)
        ∧ files w2 = files (scaffold project_path project_name force w).2.
Proof.
  intros Hok%run_ok.
  destruct (scaffold_ok_root _ _ _ _ _ Hok) as [Hdir Hne].
  destruct (root_guard_fires project_path project_name _ Hdir Hne)
    as (w2 & H2 & Hf & _).
  by exists w2.
Qed.

Lemma rerun_aborts_witness :
  ∃ w2, scaffold "/tmp/out" "billing" false
          (scaffold "/tmp/out" "billing" false empty_world).2 = (Exited 1, w2)
        ∧ files w2 = files (scaffold "/tmp/out" "billing" false empty_world).2.
Proof.
  apply (rerun_aborts "/tmp/out" "billing" false empty_world).
  vm_compute. reflexivity.
Defined.

(** C1, as stated, fails: the first run on an empty file system succeeds,
    and the identical second run ends with exit code 1. *)
Lemma rerun_is_not_a_noop :
  (scaffold "/tmp/out" "billing" false empty_world).1 = Ok tt
  ∧ (scaffold "/tmp/out" "billing" false
       (scaffold "/tmp/out" "billing" false empty_world).2).1 = Exited 1.
Proof. split; vm_compute; reflexivity. Qed.

(** C10.  A file whose path is neither an artifact path nor a marker path
    is the same after the run, whatever [force] is and however the run
    ends; in general such a path is as it was, or was free and is now a
    directory that the run made. *)
Theorem scaffold_frame project_path project_name force w q :
  q ∉ artifact_paths (root_of project_path project_name) project_name →
  q ∉ marker_paths (root_of project_path project_name) →
  (∀ c, stat w q = Some (File c) →
        stat (scaffold project_path project_name force w).2 q = Some (File c))
  ∧ (stat (scaffold project_path project_name force w).2 q = stat w q
     ∨ (stat w q = None
        ∧ stat (scaffold project_path project_name force w).2 q = Some Dir)).
Proof.
  intros Ha Hm.
  pose proof (frames_scaffold project_path project_name force w) as Ht.
  simpl in Ht. split.
  - intros c Hc. eapply touches_file_kept; [exact Ht| |exact Hc]. by intros [_ ?].
  - destruct (Ht q) as [?|[(?&?&?)|[([_ ?]&_)|([?|?]&_)]]]; auto; done.
Qed.

Lemma scaffold_frame_witness :
  (∀ c, stat busy_world ["/"; "tmp"; "out"; "billing"; "README.md"] = Some (File c) →
        stat (scaffold "/tmp/out" "billing" true busy_world).2
          ["/"; "tmp"; "out"; "billing"; "README.md"] = Some (File c))
  ∧ (stat (scaffold "/tmp/out" "billing" true busy_world).2
       ["/"; "tmp"; "out"; "billing"; "README.md"]
     = stat busy_world ["/"; "tmp"; "out"; "billing"; "README.md"]
     ∨ (stat busy_world ["/"; "tmp"; "out"; "billing"; "README.md"] = None
        ∧ stat (scaffold "/tmp/out" "billing" true busy_world).2
            ["/"; "tmp"; "out"; "billing"; "README.md"] = Some Dir)).
Proof.
  apply (scaffold_frame "/tmp/out" "billing" true busy_world).
  - apply (bool_decide_eq_false_1 _). vm_compute. reflexivity.
  - apply (bool_decide_eq_false_1 _). vm_compute. reflexivity.
Defined.

Lemma scaffold_after_guard project_path project_name force w :
  root_guard (root_of project_path project_name) force w = (Ok tt, w) →
  ∀ c, (scaffold project_path project_name force w).1 ≠ Exited c.
Proof.
  intros Hg c. rewrite scaffold_phases. simpl. unfold scaffold_upto.
  rewrite bind_unfold, (bind_unfold (root_guard _ _)), Hg.
  set (root := root_of project_path project_name).
  assert (never_exits (make_dirs root;;
                       write_all (catalog root project_name) force)) as Hne.
  { apply never_exits_bind; [apply never_exits_make_dirs|].
    intros _. apply never_exits_write_all. }
  specialize (Hne w).
  destruct ((make_dirs root;; write_all (catalog root project_name) force) w)
    as [[[]|e|c'] w1]; simpl in *; [done|done|]. by destruct (Hne c').
Qed.

(** The run leaves through [sys.exit] exactly at the root guard. *)
Lemma scaffold_exits_iff project_path project_name force w :
  (∃ c, (scaffold project_path project_name force w).1 = Exited c)
  ↔ stat w (root_of project_path project_name) = Some Dir
    ∧ entries w (root_of project_path project_name) ≠ []
    ∧ force = false.
Proof.
  set (root := root_of project_path project_name).
  pose proof (root_guard_spec root force w) as Hg. split.
  - intros [c Hc].
    destruct (stat w root) as [[c0|]|] eqn:Hroot.
    + rewrite scaffold_phases in Hc. fold root in Hc. unfold scaffold_upto in Hc.
      by rewrite bind_unfold, (bind_unfold (root_guard _ _)), Hg in Hc.
    + destruct (entries w root) as [|x l] eqn:He; simpl in Hg.
      { by destruct (scaffold_after_guard _ _ _ _ Hg c). }
      destruct force; simpl in Hg; [|done].
      by destruct (scaffold_after_guard _ _ _ _ Hg c).
    + by destruct (scaffold_after_guard _ _ _ _ Hg c).
  - intros (Hdir & Hne & ->).
    destruct (root_guard_fires project_path project_name w Hdir Hne)
      as (w' & -> & _).
    by exists 1%Z.
Qed.

(** C9, as the code has it.  The root of the run is the join
    [Path(project_path) / project_name].  For a relative name with at
    least one part the join lies strictly below the project path, and
    then: the run leaves through [sys.exit] exactly when the join is a
    directory with an entry and [force] is false, whatever the project
    path itself holds; a run that returns normally has put every declared
    directory, marker and artifact below the join; and every path that
    the run changes is below the join or is one of its ancestors (made by
    [mkdir(parents=True)]).  Paths are compared as they are written, so
    the statement is for a root without [..]. *)
Theorem effective_root project_path project_name force w :
  is_absolute (Path project_name) = false →
  Path project_name ≠ [] →
  ".." ∉ root_of project_path project_name →
  root_of project_path project_name = Path project_path ++ Path project_name
  ∧ root_of project_path project_name ≠ Path project_path
  ∧ ((∃ c, (scaffold project_path project_name force w).1 = Exited c)
     ↔ stat w (root_of project_path project_name) = Some Dir
       ∧ entries w (root_of project_path project_name) ≠ []
       ∧ force = false)
  ∧ (∀ w' q, scaffold project_path project_name force w = (Ok tt, w') →
             q ∈ dirs (root_of project_path project_name)
                 ++ marker_paths (root_of project_path project_name)
                 ++ artifact_paths (root_of project_path project_name)
                      project_name →
             root_of project_path project_name `prefix_of` q
             ∧ q ≠ root_of project_path project_name
             ∧ is_Some (stat w' q))
  ∧ (∀ q, stat (scaffold project_path project_name force w).2 q ≠ stat w q →
          q `prefix_of` root_of project_path project_name
          ∨ root_of project_path project_name `prefix_of` q).
Proof.
  intros Hrel Hne _.
  assert (root_of project_path project_name
          = Path project_path ++ Path project_name) as Hjoin.
  { unfold root_of, truediv. by rewrite Hrel. }
  set (root := root_of project_path project_name) in *.
  split_and!; [done| |apply scaffold_exits_iff| |].
  - rewrite Hjoin. intros E. apply Hne.
    apply (app_inv_head (Path project_path)). by rewrite app_nil_r.
  - intros w' q Hok Hq.
    destruct (run_complete _ _ _ _ _ Hok) as (Hdirs & Harts & _).
    fold root in Hdirs, Harts.
    assert (Forall (λ r : path, r ≠ []) (dir_rels ++ marker_rels ++ artifact_rels))
      as Hall by compute_done.
    rewrite Forall_forall in Hall.
    assert (is_Some (stat w' q)) as Hs.
    { apply elem_of_app in Hq as [Hq|Hq].
      { destruct (Hdirs q Hq) as [-> _]. eauto. }
      apply elem_of_app in Hq as [(d & -> & Hd)%list_elem_of_fmap|Hq];
        [by apply Hdirs|by apply Harts]. }
    assert (∃ r, q = root ++ r
                 ∧ r ∈ dir_rels ++ marker_rels ++ artifact_rels) as (r & -> & Hr).
    { rewrite dirs_rel, marker_paths_rel, artifact_paths_rel, <- !fmap_app in Hq.
      by apply list_elem_of_fmap in Hq. }
    split_and!; [by apply prefix_app_r| |done].
    intros E. apply (Hall r Hr).
    apply (app_inv_head root). by rewrite app_nil_r.
  - intros q Hq.
    pose proof (frames_scaffold project_path project_name force w) as Ht.
    simpl in Ht. fold root in Ht.
    destruct (Ht q) as [?|[(HD&_)|[([_ Ha]&_)|(Hc&_)]]]; [done| | |].
    + by apply (makeable_around_root root project_name).
    + right. apply (written_under_root root project_name), elem_of_app. by left.
    + right. by apply (written_under_root root project_name), elem_of_app.
Qed.

Lemma effective_root_witness :
  root_of "/tmp/out" "billing" = Path "/tmp/out" ++ Path "billing"
  ∧ root_of "/tmp/out" "billing" ≠ Path "/tmp/out"
  ∧ ((∃ c, (scaffold "/tmp/out" "billing" false shared_world).1 = Exited c)
     ↔ stat shared_world (root_of "/tmp/out" "billing") = Some Dir
       ∧ entries shared_world (root_of "/tmp/out" "billing") ≠ []
       ∧ false = false)
  ∧ (∀ w' q, scaffold "/tmp/out" "billing" false shared_world = (Ok tt, w') →
             q ∈ dirs (root_of "/tmp/out" "billing")
                 ++ marker_paths (root_of "/tmp/out" "billing")
                 ++ artifact_paths (root_of "/tmp/out" "billing") "billing" →
             root_of "/tmp/out" "billing" `prefix_of` q
             ∧ q ≠ root_of "/tmp/out" "billing"
             ∧ is_Some (stat w' q))
  ∧ (∀ q, stat (scaffold "/tmp/out" "billing" false shared_world).2 q
          ≠ stat shared_world q →
          q `prefix_of` root_of "/tmp/out" "billing"
          ∨ root_of "/tmp/out" "billing" `prefix_of` q).
Proof.
  apply (effective_root "/tmp/out" "billing" false shared_world).
  - vm_compute. reflexivity.
  - vm_compute. discriminate.
  - apply (bool_decide_eq_false_1 _). vm_compute. reflexivity.
Defined.

(** C9, as stated, fails: with the name [""] or ["."] the join is the
    project path itself, so the guard inspects the project path, and a
    project path that is not empty stops the run. *)
Lemma root_can_be_the_project_path :
  root_of "/tmp/out" "" = Path "/tmp/out"
  ∧ root_of "/tmp/out" "." = Path "/tmp/out"
  ∧ entries shared_world (Path "/tmp/out") ≠ []
  ∧ (scaffold "/tmp/out" "" false shared_world).1 = Exited 1
  ∧ (scaffold "/tmp/out" "." false shared_world).1 = Exited 1.
Proof. split_and!; vm_compute; (reflexivity || discriminate). Qed.

(** A project path that is not empty does not stop the run when the joined
    root is absent: [/tmp/out] holds [other.txt], and the run generates
    [/tmp/out/billing] and keeps [other.txt]. *)
Example shared_project_path_runs :
  entries shared_world (Path "/tmp/out") ≠ []
  ∧ (scaffold "/tmp/out" "billing" false shared_world).1 = Ok tt
  ∧ stat (scaffold "/tmp/out" "billing" false shared_world).2
      ["/"; "tmp"; "out"; "other.txt"] = Some (File "other").
Proof. split_and!; vm_compute; [discriminate|reflexivity..]. Qed.

(** C7.  After a successful run every declared directory is a directory
    and has its marker in it, and every artifact exists at its path.  Each
    marker and artifact is a regular file, unless a directory already
    occupied its path before the run. *)
Theorem scaffold_complete project_path project_name force w w' :
  scaffold project_path project_name force w = (Ok tt, w') →
  (∀ d, d ∈ dirs (root_of project_path project_name) →
        stat w' d = Some Dir
        ∧ parent (marker d) = d
        ∧ is_Some (stat w' (marker d)))
  ∧ (∀ p, p ∈ artifact_paths (root_of project_path project_name) project_name →
          is_Some (stat w' p))
  ∧ (∀ q, q ∈ artifact_paths (root_of project_path project_name) project_name
              ++ marker_paths (root_of project_path project_name) →
          stat w q ≠ Some Dir → ∃ c, stat w' q = Some (File c)).
Proof. apply run_complete. Qed.

Lemma scaffold_complete_witness :
  (∀ d, d ∈ dirs (root_of "/tmp/out" "billing") →
        stat (scaffold "/tmp/out" "billing" false empty_world).2 d = Some Dir
        ∧ parent (marker d) = d
        ∧ is_Some (stat (scaffold "/tmp/out" "billing" false empty_world).2 (marker d)))
  ∧ (∀ p, p ∈ artifact_paths (root_of "/tmp/out" "billing") "billing" →
          is_Some (stat (scaffold "/tmp/out" "billing" false empty_world).2 p))
  ∧ (∀ q, q ∈ artifact_paths (root_of "/tmp/out" "billing") "billing"
              ++ marker_paths (root_of "/tmp/out" "billing") →
          stat empty_world q ≠ Some Dir →
          ∃ c, stat (scaffold "/tmp/out" "billing" false empty_world).2 q
               = Some (File c)).
Proof.
  apply (scaffold_complete "/tmp/out" "billing" false empty_world).
  apply run_ok. vm_compute. reflexivity.
Defined.

(** C6.  After a successful run with [force = true] every artifact of the
    catalog holds the text that its render function returns for the
    project name, whatever was at its path before. *)
Theorem overwrite_rewrites_artifacts project_path project_name w w' p c :
  scaffold project_path project_name true w = (Ok tt, w') →
  (p, c) ∈ catalog (root_of project_path project_name) project_name →
  stat w' p = Some (File c).
Proof. intros Hok Hin. eapply scaffold_renders; eauto. Qed.

Lemma overwrite_rewrites_artifacts_witness :
  stat edited_world ["/"; "tmp"; "out"; "billing"; "pyproject.toml"]
    = Some (File "old")
  ∧ stat (scaffold "/tmp/out" "billing" true edited_world).2
      ["/"; "tmp"; "out"; "billing"; "pyproject.toml"]
    = Some (File (make_pyproject "billing")).
Proof.
  split; [vm_compute; reflexivity|].
  apply (overwrite_rewrites_artifacts "/tmp/out" "billing" edited_world).
  - apply run_ok. vm_compute. reflexivity.
  - apply list_elem_of_here.
Defined.

(** C3, as the code has it.  [scaffold] catches nothing: when the write of
    an artifact raises, the run ends with that exception in the state the
    failing call left, so no later artifact is attempted. *)
Theorem artifact_failure_aborts project_path project_name force w pre a post e :
  catalog (root_of project_path project_name) project_name = pre ++ a :: post →
  (scaffold_upto (root_of project_path project_name) force pre w).1 = Ok tt →
  (write_file a.1 a.2 force
     (scaffold_upto (root_of project_path project_name) force pre w).2).1
  = Raised e →
  scaffold project_path project_name force w
  = (Raised e,
     (write_file a.1 a.2 force
        (scaffold_upto (root_of project_path project_name) force pre w).2).2).
Proof.
  intros Hcat Hpre%run_ok Hfail.
  rewrite scaffold_phases. simpl. rewrite Hcat, bind_unfold, scaffold_upto_app.
  rewrite bind_unfold, Hpre, bind_unfold.
  destruct (write_file a.1 a.2 force _) as [r w2]. simpl in Hfail. by subst r.
Qed.

Lemma artifact_failure_aborts_witness :
  scaffold "/tmp/out" "billing" true blocked_world
  = (Raised (OSError EISDIR ["/"; "tmp"; "out"; "billing"; "Makefile"]),
     (write_file ["/"; "tmp"; "out"; "billing"; "Makefile"] make_makefile true
        (scaffold_upto (root_of "/tmp/out" "billing") true
           (take 5 (catalog (root_of "/tmp/out" "billing") "billing"))
           blocked_world).2).2).
Proof.
  apply (artifact_failure_aborts "/tmp/out" "billing" true blocked_world
           (take 5 (catalog (root_of "/tmp/out" "billing") "billing"))
           (["/"; "tmp"; "out"; "billing"; "Makefile"], make_makefile)
           (drop 6 (catalog (root_of "/tmp/out" "billing") "billing"))).
  - reflexivity.
  - vm_compute. reflexivity.
  - vm_compute. reflexivity.
Defined.

(** C3, as stated, fails: with a directory in the place of [Makefile] the
    write raises [IsADirectoryError], the run ends there, and [.gitignore],
    the next artifact, is never written. *)
Lemma failure_stops_the_run :
  (scaffold "/tmp/out" "billing" true blocked_world).1
  = Raised (OSError EISDIR ["/"; "tmp"; "out"; "billing"; "Makefile"])
  ∧ stat (scaffold "/tmp/out" "billing" true blocked_world).2
      ["/"; "tmp"; "out"; "billing"; ".gitignore"] = None
  ∧ stdout (scaffold "/tmp/out" "billing" true blocked_world).2 = [].
Proof. split_and!; vm_compute; reflexivity. Qed.

(** ** Markers (C4) *)

(** [write_init] itself follows the write policy: under [force] it writes
    the marker again. *)
Lemma write_init_rewrites_under_force d w w' :
  write_init d true w = (Ok tt, w') →
  stat w' (marker d) = Some (File init_content).
Proof. intros [_ H]%write_init_ok. apply H. by left. Qed.

(** [scaffold] calls [write_init(d)] without [force]: a marker that exists
    is never written again, whatever [force] is. *)
Lemma markers_never_rewritten project_path project_name force w d c :
  d ∈ dirs (root_of project_path project_name) →
  stat w (marker d) = Some (File c) →
  stat (scaffold project_path project_name force w).2 (marker d) = Some (File c).
Proof.
  intros Hd Hc.
  pose proof (frames_scaffold project_path project_name force w) as Ht.
  simpl in Ht. eapply touches_file_kept; [exact Ht| |exact Hc].
  intros [_ Ha]. eapply artifact_not_marker; [exact Ha|].
  by apply list_elem_of_fmap_2.
Qed.

(** C4, at a concrete input: [src/__init__.py] holds ["custom"]; the run
    with [force = true] succeeds, rewrites [pyproject.toml], and leaves the
    marker as it was, not the current marker content. *)
Theorem marker_kept_under_force :
  (scaffold "/tmp/out" "billing" true edited_world).1 = Ok tt
  ∧ stat (scaffold "/tmp/out" "billing" true edited_world).2
      (marker ["/"; "tmp"; "out"; "billing"; "src"]) = Some (File "custom")
  ∧ Some (File "custom") ≠ Some (File init_content)
  ∧ stat (scaffold "/tmp/out" "billing" true edited_world).2
      ["/"; "tmp"; "out"; "billing"; "pyproject.toml"]
    = Some (File (make_pyproject "billing")).
Proof. split_and!; vm_compute; (reflexivity || discriminate). Qed.

(** ** Parameters (C5) *)

Lemma truediv_empty (p : path) : p </> "" = p.
Proof. unfold truediv. simpl. apply app_nil_r. Qed.

Lemma usable_empty_world root name force : usable root name force empty_world.
Proof.
  assert (∀ q, stat empty_world q = Some Dir ∨ stat empty_world q = None) as H.
  { intros q. unfold stat. destruct (is_anchor q); auto. }
  split_and!.
  - intros q c _ Hc. destruct (H q); congruence.
  - intros q Hq Hd.
    assert (is_anchor q = false) as Ha.
    { rewrite artifact_paths_rel in Hq.
      apply list_elem_of_fmap in Hq as (r & -> & Hr).
      assert (Forall (λ r : path, r ≠ [] ∧ is_anchor r = false) artifact_rels)
        as Hall by compute_done.
      rewrite Forall_forall in Hall. destruct (Hall r Hr).
      by apply is_anchor_app. }
    unfold stat in Hd. by rewrite Ha in Hd.
  - right. right. done.
Qed.

(** C5, as the code has it.  [scaffold] has no check of its parameters
    and no [InvalidParameter] condition: an empty project name is
    accepted.  The root is then the project path itself, and the run does
    there what it does at any root: it leaves through [sys.exit] only at
    the root guard, and when it returns normally the tree is in the
    project path.  With both strings empty the root is the current
    directory, and the run returns normally whenever that is usable. *)
Theorem parameters_not_validated project_path force w :
  root_of project_path "" = Path project_path
  ∧ ((∃ c, (scaffold project_path "" force w).1 = Exited c)
     ↔ stat w (Path project_path) = Some Dir
       ∧ entries w (Path project_path) ≠ []
       ∧ force = false)
  ∧ (∀ w', scaffold project_path "" force w = (Ok tt, w') →
           stat w' (Path project_path ++ ["src"]) = Some Dir
           ∧ is_Some (stat w' (Path project_path ++ ["pyproject.toml"])))
  ∧ (usable [] "" force w →
     ∃ w', scaffold "" "" force w = (Ok tt, w')
           ∧ stat w' ["src"] = Some Dir
           ∧ is_Some (stat w' ["pyproject.toml"])).
Proof.
  assert (root_of project_path "" = Path project_path) as Hroot
    by apply truediv_empty.
  assert (∀ p w0 w', scaffold p "" force w0 = (Ok tt, w') →
            stat w' (Path p ++ ["src"]) = Some Dir
            ∧ is_Some (stat w' (Path p ++ ["pyproject.toml"]))) as Hplaced.
  { intros p w0 w' Hok.
    destruct (run_complete _ _ _ _ _ Hok) as (Hdirs & Harts & _).
    unfold root_of in Hdirs, Harts.
    rewrite (truediv_empty (Path p)) in Hdirs, Harts. split.
    - apply Hdirs. rewrite dirs_rel.
      by apply (list_elem_of_fmap_2 (Path p ++.) _ ["src"]), elem_of_cons; left.
    - apply Harts. rewrite artifact_paths_rel.
      by apply (list_elem_of_fmap_2 (Path p ++.) _ ["pyproject.toml"]),
           elem_of_cons; left. }
  split_and!; [done| |by apply Hplaced|].
  - rewrite <- Hroot. apply scaffold_exits_iff.
  - intros Hu.
    pose proof (scaffold_succeeds "" "" force w Hu) as Hok%run_ok.
    eexists. split; [exact Hok|]. exact (Hplaced "" _ _ Hok).
Qed.

Lemma parameters_not_validated_witness :
  ∃ w', scaffold "" "" false empty_world = (Ok tt, w')
        ∧ stat w' ["src"] = Some Dir
        ∧ is_Some (stat w' ["pyproject.toml"]).
Proof.
  destruct (parameters_not_validated "" false empty_world) as (_ & _ & _ & H).
  apply H. apply usable_empty_world.
Defined.

(** C5, as stated, fails: with an empty project name, and even with both
    strings empty, the run performs its writes and returns normally. *)
Lemma empty_parameters_accepted :
  (scaffold "/tmp/out" "" false empty_world).1 = Ok tt
  ∧ stat (scaffold "/tmp/out" "" false empty_world).2
      ["/"; "tmp"; "out"; "src"; "main.py"] = Some (File make_main)
  ∧ (scaffold "" "" false empty_world).1 = Ok tt
  ∧ stat (scaffold "" "" false empty_world).2 ["pyproject.toml"]
    = Some (File (make_pyproject "")).
Proof. split_and!; vm_compute; reflexivity. Qed.

(** * Further properties *)

(** The file system stays a tree: when every entry lies in a directory
    before the run, so it does after it, however the run ends. *)
Theorem scaffold_keeps_tree project_path project_name force w :
  well_formed w →
  well_formed (scaffold project_path project_name force w).2.
Proof. apply keeps_tree_scaffold. Qed.

Lemma scaffold_keeps_tree_witness :
  well_formed busy_world
  ∧ well_formed (scaffold "/tmp/out" "billing" true busy_world).2.
Proof.
  assert (well_formed busy_world) as H by compute_done.
  split; [exact H|].
  exact (scaffold_keeps_tree "/tmp/out" "billing" true busy_world H).
Defined.

(** The write policy of [write_file]: on a tree, a file that exists is
    skipped when [force] is false; the call returns normally and changes
    nothing. *)
Theorem write_file_skips p content c0 w :
  well_formed w → stat w p = Some (File c0) →
  write_file p content false w = (Ok tt, w).
Proof.
  intros Hwf Hp.
  assert (∀ q, stat w q = Some Dir → stat w (parent q) = Some Dir) as Hup.
  { intros q Hq. destruct (is_anchor q) eqn:Ha.
    - by rewrite parent_anchor.
    - unfold stat in Hq. rewrite Ha in Hq. by apply (Hwf q Dir). }
  assert (stat w (parent p) = Some Dir) as Hpar.
  { destruct (is_anchor p) eqn:Ha; [by rewrite stat_anchor in Hp|].
    unfold stat in Hp. rewrite Ha in Hp. by apply (Hwf p (File c0)). }
  assert (mkdir (parent p) true true w = (Ok tt, w)) as Hmk.
  { unfold mkdir.
    assert (os_mkdir (parent p) w = (Raised (OSError EEXIST (parent p)), w)) as H1.
    { unfold os_mkdir. by rewrite (Hup _ Hpar), Hpar. }
    destruct (length (parent p)); simpl; rewrite H1; simpl;
      by rewrite bool_decide_eq_true_2. }
  unfold write_file. rewrite bind_unfold, Hmk, bind_unfold. simpl.
  by rewrite bool_decide_eq_true_2 by eauto.
Qed.

Lemma write_file_skips_witness :
  write_file ["/"; "tmp"; "out"; "billing"; "README.md"] "new" false busy_world
  = (Ok tt, busy_world).
Proof.
  apply (write_file_skips _ "new" "mine" busy_world).
  - compute_done.
  - vm_compute. reflexivity.
Defined.



(** ** [write_file] and [write_init] on their own *)

Lemma parent_is_dir w q n :
  well_formed w → stat w q = Some n → stat w (parent q) = Some Dir.
Proof.
  intros Hwf Hq. destruct (is_anchor q) eqn:Ha.
  - rewrite parent_anchor by done. by apply stat_anchor.
  - unfold stat in Hq. rewrite Ha in Hq. by apply (Hwf q n).
Qed.

Lemma tree_prefixes_are_dirs w p :
  well_formed w → stat w p = Some Dir →
  ∀ q, q `prefix_of` p → stat w q = Some Dir.
Proof.
  intros Hwf. induction p as [|x p IH] using rev_ind; intros Hp q Hq.
  - apply prefix_nil_inv in Hq as ->. done.
  - destruct (decide (q = p ++ [x])) as [->|Hne]; [done|].
    assert (q `prefix_of` p) as Hqp.
    { destruct Hq as [k Hk]. destruct k as [|y k] using rev_ind.
      - rewrite app_nil_r in Hk. by subst q.
      - rewrite app_assoc in Hk. apply app_inj_2 in Hk as [-> _]; [|done].
        by apply prefix_app_r. }
    destruct (is_anchor (p ++ [x])) eqn:Ha.
    + destruct p as [|y p]; [|by destruct p].
      apply prefix_nil_inv in Hqp as ->. done.
    + apply IH; [|done].
      pose proof (parent_is_dir w _ _ Hwf Hp) as Hpar.
      unfold parent in Hpar. by rewrite Ha, removelast_last in Hpar.
Qed.

Lemma walk_errno_dirs w cur a b :
  (∀ q, q `prefix_of` a → q ≠ [] → stat w (cur ++ q) = Some Dir) →
  walk_errno w cur (a ++ b) = walk_errno w (cur ++ a) b.
Proof.
  revert cur. induction a as [|x a IH]; intros cur H; simpl.
  { by rewrite app_nil_r. }
  rewrite (H [x]); [|by apply prefix_cons, prefix_nil|done].
  rewrite IH; [by rewrite <- app_assoc|].
  intros q Hq _. rewrite <- app_assoc. apply H; [|done].
  simpl. by apply prefix_cons.
Qed.

(** On a tree, a lookup through a regular file stops there with
    [ENOTDIR]. *)
Lemma lookup_errno_blocked w p :
  well_formed w → below_file w p → lookup_errno w p = ENOTDIR.
Proof.
  intros Hwf (q & c & [k ->] & Hq).
  destruct q as [|x a _] using rev_ind; [done|].
  assert (is_anchor (a ++ [x]) = false) as Ha.
  { destruct (is_anchor (a ++ [x])) eqn:E; [|done].
    by rewrite (stat_anchor w _ E) in Hq. }
  pose proof (parent_is_dir w _ _ Hwf Hq) as Hpar.
  unfold parent in Hpar. rewrite Ha, removelast_last in Hpar.
  unfold lookup_errno. rewrite <- app_assoc, walk_errno_dirs.
  - simpl. by rewrite Hq.
  - intros q Hpre _. simpl. by apply (tree_prefixes_are_dirs w a).
Qed.


(** [mkdir(exist_ok=True)] on a directory of a tree does nothing. *)
Lemma mkdir_aux_noop n p parents w :
  well_formed w → stat w p = Some Dir →
  mkdir_aux n p parents true w = (Ok tt, w).
Proof.
  intros Hwf Hp.
  assert (os_mkdir p w = (Raised (OSError EEXIST p), w)) as H1.
  { unfold os_mkdir. by rewrite (parent_is_dir w p Dir), Hp. }
  destruct n; simpl; rewrite H1; simpl; by rewrite bool_decide_eq_true_2.
Qed.

(** and on a regular file it raises [FileExistsError]. *)
Lemma mkdir_aux_on_file n p parents c w :
  well_formed w → stat w p = Some (File c) →
  mkdir_aux n p parents true w = (Raised (OSError EEXIST p), w).
Proof.
  intros Hwf Hp.
  assert (os_mkdir p w = (Raised (OSError EEXIST p), w)) as H1.
  { unfold os_mkdir. by rewrite (parent_is_dir w p (File c)), Hp. }
  destruct n; simpl; rewrite H1; simpl;
    by rewrite bool_decide_eq_false_2 by (rewrite Hp; discriminate).
Qed.

Lemma set_files_same w p n :
  files w !! p = Some n → set_files <[p:=n]> w = w.
Proof.
  intros H. destruct w as [f out]. unfold set_files. simpl in *.
  by rewrite insert_id.
Qed.

(** On a tree, [write_file] with the content that a file already holds
    returns normally and changes nothing, with or without [force]. *)
Lemma write_file_fixed p content force w :
  well_formed w → stat w p = Some (File content) →
  write_file p content force w = (Ok tt, w).
Proof.
  intros Hwf Hp. unfold write_file.
  pose proof (parent_is_dir w p _ Hwf Hp) as Hpar.
  unfold mkdir. rewrite bind_unfold, (mkdir_aux_noop _ _ _ _ Hwf Hpar).
  rewrite bind_unfold. simpl. rewrite bool_decide_eq_true_2 by eauto.
  destruct force; simpl; [|done].
  unfold write_text. rewrite Hpar, Hp. f_equal. apply set_files_same.
  unfold stat in Hp. destruct (is_anchor p); [done|exact Hp].
Qed.



(** [write_file] is idempotent on a tree: a call that returned normally,
    made again with the same arguments, returns normally and changes
    nothing. *)
Theorem write_file_idempotent p content force w w1 :
  well_formed w →
  write_file p content force w = (Ok tt, w1) →
  write_file p content force w1 = (Ok tt, w1).
Proof.
  intros Hwf Hok.
  assert (well_formed w1) as Hwf1.
  { pose proof (keeps_tree_write_file p content force w Hwf) as H.
    by rewrite Hok in H. }
  pose proof (write_file_ok_parent _ _ _ _ _ Hok) as Hpar.
  destruct (write_file_ok _ _ _ _ _ Hok) as [[n Hn] Hc].
  destruct force.
  - apply write_file_fixed; [done|]. apply Hc. by left.
  - unfold write_file, mkdir.
    rewrite bind_unfold, (mkdir_aux_noop _ _ _ _ Hwf1 Hpar), bind_unfold.
    simpl. by rewrite bool_decide_eq_true_2 by eauto.
Qed.

Lemma write_file_idempotent_witness :
  write_file ["srv"; "app"; "a.txt"] "text" true
    (write_file ["srv"; "app"; "a.txt"] "text" true busy_world).2
  = (Ok tt, (write_file ["srv"; "app"; "a.txt"] "text" true busy_world).2).
Proof.
  apply (write_file_idempotent ["srv"; "app"; "a.txt"] "text" true busy_world).
  - compute_done.
  - apply run_ok. vm_compute. reflexivity.
Defined.

(** [write_file] on a path that is a directory: with [force] the write
    raises [IsADirectoryError]; without it the directory counts as an
    existing target and the call returns without a word.  The tree is
    unchanged in both cases. *)
Theorem write_file_on_directory p content force w :
  well_formed w → stat w p = Some Dir →
  write_file p content force w
  = (if force then Raised (OSError EISDIR p) else Ok tt, w).
Proof.
  intros Hwf Hp. unfold write_file, mkdir.
  pose proof (parent_is_dir w p _ Hwf Hp) as Hpar.
  rewrite bind_unfold, (mkdir_aux_noop _ _ _ _ Hwf Hpar), bind_unfold. simpl.
  rewrite bool_decide_eq_true_2 by eauto.
  destruct force; simpl; [|done]. unfold write_text. by rewrite Hpar, Hp.
Qed.

Lemma write_file_on_directory_witness :
  write_file ["/"; "tmp"; "out"; "billing"; "Makefile"] make_makefile true
    blocked_world
  = (if true then Raised (OSError EISDIR ["/"; "tmp"; "out"; "billing"; "Makefile"])
     else Ok tt, blocked_world).
Proof.
  apply (write_file_on_directory _ make_makefile true blocked_world).
  - compute_done.
  - vm_compute. reflexivity.
Defined.

(** [write_file] below a regular file: making the parent raises
    [FileExistsError] for the parent, and nothing changes. *)
Theorem write_file_under_file p content force c w :
  well_formed w → stat w (parent p) = Some (File c) →
  write_file p content force w = (Raised (OSError EEXIST (parent p)), w).
Proof.
  intros Hwf Hpar. unfold write_file, mkdir.
  by rewrite bind_unfold, (mkdir_aux_on_file _ _ _ c _ Hwf Hpar).
Qed.

Lemma write_file_under_file_witness :
  write_file ["/"; "tmp"; "out"; "billing"; "README.md"; "x.txt"] "text" true
    busy_world
  = (Raised (OSError EEXIST
               (parent ["/"; "tmp"; "out"; "billing"; "README.md"; "x.txt"])),
     busy_world).
Proof.
  apply (write_file_under_file _ "text" true "mine" busy_world).
  - compute_done.
  - vm_compute. reflexivity.
Defined.

Lemma marker_not_anchor d : is_anchor (marker d) = false.
Proof.
  unfold marker. rewrite truediv_relative by done.
  change (Path "__init__.py") with ["__init__.py"]. by apply is_anchor_app.
Qed.

Lemma write_text_other p content w w' q :
  write_text p content w = (Ok tt, w') → q ≠ p → stat w' q = stat w q.
Proof.
  unfold write_text. destruct (stat w (parent p)) as [[c|]|]; try done.
  destruct (stat w p) as [[c|]|] eqn:Hp; try done; intros [= <-] Hq;
    rewrite stat_insert by (apply (stat_not_anchor w); congruence);
    by rewrite decide_False.
Qed.

(** [write_init] in a directory: the call returns normally; a marker that
    exists is left alone unless [force] is set, and otherwise the marker
    holds the fixed marker text and no other path has changed. *)
Theorem write_init_policy d force w :
  stat w d = Some Dir → stat w (marker d) ≠ Some Dir →
  ∃ w', write_init d force w = (Ok tt, w')
        ∧ (if bool_decide (is_Some (stat w (marker d))) && negb force
           then w' = w
           else stat w' (marker d) = Some (File init_content)
                ∧ ∀ q, q ≠ marker d → stat w' q = stat w q).
Proof.
  intros Hd Hnd.
  destruct (write_text_succeeds (marker d) init_content w) as (w1 & Hw);
    [by rewrite marker_parent|done|].
  unfold write_init. fold (marker d). rewrite bind_unfold. simpl.
  destruct (bool_decide (is_Some (stat w (marker d)))), force; simpl;
    [|by exists w|..];
    (exists w1; split_and!; [done|by eapply write_text_ok|];
     intros q Hq; by eapply write_text_other).
Qed.

Lemma write_init_policy_witness :
  ∃ w', write_init ["/"; "tmp"; "out"; "billing"; "src"] true edited_world
        = (Ok tt, w')
        ∧ (if bool_decide
                (is_Some (stat edited_world
                            (marker ["/"; "tmp"; "out"; "billing"; "src"])))
              && negb true
           then w' = edited_world
           else stat w' (marker ["/"; "tmp"; "out"; "billing"; "src"])
                = Some (File init_content)
                ∧ ∀ q, q ≠ marker ["/"; "tmp"; "out"; "billing"; "src"] →
                       stat w' q = stat edited_world q).
Proof.
  apply (write_init_policy ["/"; "tmp"; "out"; "billing"; "src"] true
           edited_world).
  - vm_compute. reflexivity.
  - vm_compute. discriminate.
Defined.



Lemma prefix_parent (q p : path) :
  q `prefix_of` p → q ≠ p → q `prefix_of` parent p.
Proof.
  intros [k ->] Hne. destruct k as [|y k _] using rev_ind.
  { by rewrite app_nil_r in Hne. }
  unfold parent. destruct (is_anchor (q ++ k ++ [y])) eqn:Ha.
  - destruct q as [|x q]; [apply prefix_nil|]. simpl in Ha.
    destruct (q ++ k ++ [y]) eqn:E; [|done].
    apply app_eq_nil in E as [_ E]. by apply app_eq_nil in E as [_ E].
  - rewrite app_assoc, removelast_last. by apply prefix_app_r.
Qed.

(** [write_file] where the parent is missing below a regular file: on a
    tree, [os.mkdir] of the parent fails with [ENOTDIR], which
    [mkdir(parents=True, exist_ok=True)] raises again as it is (only
    [FileNotFoundError] makes it create the directories above), and
    nothing changes. *)
Theorem write_file_below_file p content force w :
  well_formed w → stat w (parent p) = None → below_file w (parent p) →
  write_file p content force w = (Raised (OSError ENOTDIR (parent p)), w).
Proof.
  intros Hwf Hpar (q & c & Hq & Hc).
  assert (below_file w (parent (parent p))) as Hb.
  { exists q, c. split; [|done]. apply prefix_parent; [done|]. congruence. }
  assert (os_mkdir (parent p) w = (Raised (OSError ENOTDIR (parent p)), w)) as H1.
  { unfold os_mkdir. destruct (stat w (parent (parent p))) as [[c'|]|] eqn:E.
    - done.
    - destruct Hb as (q' & c' & Hq' & Hc').
      by rewrite (tree_prefixes_are_dirs w _ Hwf E q' Hq') in Hc'.
    - by rewrite lookup_errno_blocked. }
  unfold write_file, mkdir. rewrite bind_unfold.
  destruct (length (parent p)); simpl; rewrite H1; simpl;
    by rewrite bool_decide_eq_false_2 by (rewrite Hpar; discriminate).
Qed.

Lemma write_file_below_file_witness :
  write_file ["/"; "tmp"; "out"; "billing"; "README.md"; "sub"; "x.txt"] "text"
    true busy_world
  = (Raised (OSError ENOTDIR
               (parent ["/"; "tmp"; "out"; "billing"; "README.md"; "sub"; "x.txt"])),
     busy_world).
Proof.
  apply (write_file_below_file _ "text" true busy_world).
  - compute_done.
  - vm_compute. reflexivity.
  - exists ["/"; "tmp"; "out"; "billing"; "README.md"], "mine".
    split; [by exists ["sub"]|]. vm_compute. reflexivity.
Defined.

(** ** [scaffold]: output, monotonicity, the root *)

Lemma quiet_ret {A} (a : A) : quiet (ret a).
Proof. by intros w. Qed.

Lemma quiet_bind {A B} (m : M A) (f : A → M B) :
  quiet m → (∀ a, quiet (f a)) → quiet (m ≫= f).
Proof.
  intros Hm Hf w. rewrite bind_unfold. specialize (Hm w).
  destruct (m w) as [[a|e|c] w1]; simpl in *; [|done..].
  by rewrite Hf.
Qed.

Lemma quiet_for_each {A} (l : list A) (body : A → M unit) :
  (∀ x, quiet (body x)) → quiet (for_each l body).
Proof.
  intros H. induction l as [|x l IH]; simpl.
  - apply quiet_ret.
  - by apply quiet_bind.
Qed.

Lemma quiet_os_mkdir p : quiet (os_mkdir p).
Proof. intros w. unfold os_mkdir. by repeat case_match. Qed.

Lemma quiet_mkdir_aux n p parents exist_ok : quiet (mkdir_aux n p parents exist_ok).
Proof.
  revert p parents exist_ok.
  induction n as [|n IH]; intros p parents exist_ok w;
    pose proof (quiet_os_mkdir p w) as H1; simpl;
    destruct (os_mkdir p w) as [[[]|[[] f]|c] w1]; simpl in *;
    repeat case_match; simpl; try done.
  rewrite <- H1. revert w1 H1. intros w1 _. by apply quiet_bind.
Qed.

Lemma quiet_write_text p content : quiet (write_text p content).
Proof. intros w. unfold write_text. by repeat case_match. Qed.

Lemma quiet_write_file p content force : quiet (write_file p content force).
Proof.
  unfold write_file. apply quiet_bind; [apply quiet_mkdir_aux|].
  intros _. apply quiet_bind; [done|]. intros e.
  destruct (e && negb force); [apply quiet_ret|apply quiet_write_text].
Qed.

Lemma quiet_write_init d force : quiet (write_init d force).
Proof.
  unfold write_init. apply quiet_bind; [done|]. intros e.
  destruct (negb e || force); [apply quiet_write_text|apply quiet_ret].
Qed.

Lemma quiet_body root name force :
  quiet (make_dirs root;; write_all (catalog root name) force).
Proof.
  apply quiet_bind.
  - apply quiet_for_each. intros d.
    apply quiet_bind; [apply quiet_mkdir_aux|]. intros _. apply quiet_write_init.
  - intros _. apply quiet_for_each. intros a. apply quiet_write_file.
Qed.

(** What a run prints: the [OK] line when it returns normally, the error
    line when the root guard stops it, and nothing when it raises. *)
Theorem scaffold_output project_path project_name force w :
  stdout (scaffold project_path project_name force w).2
  = stdout w
    ++ match (scaffold project_path project_name force w).1 with
       | Ok _ => [ok_message (root_of project_path project_name)]
       | Raised _ => []
       | Exited _ => [guard_message (root_of project_path project_name)]
       end.
Proof.
  rewrite scaffold_phases. simpl.
  set (root := root_of project_path project_name). unfold scaffold_upto.
  rewrite bind_unfold, (bind_unfold (root_guard _ _)), root_guard_spec.
  assert (∀ w0, stdout w0 = stdout w0 ++ []) as Hnil
    by (intros; by rewrite app_nil_r).
  destruct (stat w root) as [[c|]|]; simpl; [done| |].
  - destruct (any (entries w root) && negb force); simpl; [done|].
    pose proof (quiet_body root project_name force w) as Hq.
    pose proof (never_exits_bind _ _ (never_exits_make_dirs root)
                  (λ _, never_exits_write_all (catalog root project_name) force)
                  w) as Hne.
    destruct ((make_dirs root;; write_all _ _) w) as [[[]|e|c] w1];
      simpl in *; rewrite ?Hq; try done. by destruct (Hne c).
  - pose proof (quiet_body root project_name force w) as Hq.
    pose proof (never_exits_bind _ _ (never_exits_make_dirs root)
                  (λ _, never_exits_write_all (catalog root project_name) force)
                  w) as Hne.
    destruct ((make_dirs root;; write_all _ _) w) as [[[]|e|c] w1];
      simpl in *; rewrite ?Hq; try done. by destruct (Hne c).
Qed.

(** A run deletes nothing and changes no kind: a directory stays a
    directory and a regular file stays one, with the same content when
    [force] is false, however the run ends. *)
Theorem scaffold_never_deletes project_path project_name force w q :
  (stat w q = Some Dir →
   stat (scaffold project_path project_name force w).2 q = Some Dir)
  ∧ (∀ c, stat w q = Some (File c) →
          ∃ c', stat (scaffold project_path project_name force w).2 q
                = Some (File c')
                ∧ (force = false → c' = c)).
Proof.
  pose proof (frames_scaffold project_path project_name force w) as Ht.
  simpl in Ht. split.
  - intros Hd. by eapply touches_dir.
  - intros c Hc.
    destruct (Ht q) as [E|[(?&?&?)|[([-> _]&_&[c' E])|(?&?&?)]]];
      try congruence.
    + exists c. by rewrite E.
    + exists c'. by split.
Qed.

(** When the root is a regular file the run raises [NotADirectoryError]
    from [iterdir], with or without [force], and changes nothing. *)
Theorem root_is_file_raises project_path project_name force c w :
  stat w (root_of project_path project_name) = Some (File c) →
  scaffold project_path project_name force w
  = (Raised (OSError ENOTDIR (root_of project_path project_name)), w).
Proof.
  intros Hroot. rewrite scaffold_phases. simpl. unfold scaffold_upto.
  by rewrite bind_unfold, (bind_unfold (root_guard _ _)), root_guard_spec, Hroot.
Qed.

Lemma root_is_file_raises_witness :
  scaffold "/tmp/out" "billing" true file_root_world
  = (Raised (OSError ENOTDIR (root_of "/tmp/out" "billing")), file_root_world).
Proof.
  apply (root_is_file_raises "/tmp/out" "billing" true "notes" file_root_world).
  vm_compute. reflexivity.
Defined.

Lemma Path_slash_absolute rest : is_absolute (Path (String "/"%char rest)) = true.
Proof.
  unfold Path.
  assert (anchor_of (String "/"%char rest) = ["/"]
          ∨ anchor_of (String "/"%char rest) = ["//"]) as [->| ->]; [|done..].
  destruct rest as [|a rest]; [by left|].
  destruct (decide (a = "/"%char)) as [->|Ha].
  - destruct rest as [|b rest]; [by right|].
    destruct (decide (b = "/"%char)) as [->|Hb]; [by left|].
    right. destruct b as [[] [] [] [] [] [] [] []]; done.
  - left. destruct a as [[] [] [] [] [] [] [] []]; done.
Qed.

(** A project name that starts with a slash replaces the project path:
    the root is the name alone, and the run is the same for every project
    path. *)
Theorem absolute_name_replaces_path project_path rest force w :
  root_of project_path (String "/"%char rest) = Path (String "/"%char rest)
  ∧ scaffold project_path (String "/"%char rest) force w
    = scaffold "" (String "/"%char rest) force w.
Proof.
  assert (∀ p, Path p </> String "/"%char rest = Path (String "/"%char rest)) as H.
  { intros p. unfold truediv. by rewrite Path_slash_absolute. }
  split; [apply H|]. unfold scaffold. by rewrite !H.
Qed.

(** The layout holds together for every root and name: no two generated
    files share a path, and none lies on the way to a directory that the
    run makes (so no step of a run is in the way of another). *)
Theorem layout_consistent root project_name :
  NoDup (artifact_paths root project_name ++ marker_paths root)
  ∧ (∀ q, q ∈ artifact_paths root project_name ++ marker_paths root →
          ¬ makeable root project_name q).
Proof.
  split.
  - apply artifact_marker_nodup.
  - apply written_not_makeable.
Qed.

(** ** Markers and reruns *)

Lemma marker_app d : marker d = d ++ ["__init__.py"].
Proof. unfold marker. by rewrite truediv_relative. Qed.

Global Instance marker_inj : Inj (=) (=) marker.
Proof.
  intros d1 d2 H. rewrite !marker_app in H. by apply app_inj_2 in H as [? _].
Qed.

(** Only the declared directories get a marker: for every other directory
    at or below the root, the marker path is after the run what it was
    before.  In particular [tests] and [infra] stay without a marker. *)
Theorem undeclared_directory_gets_no_marker project_path project_name force w d :
  root_of project_path project_name `prefix_of` d →
  d ∉ dirs (root_of project_path project_name) →
  stat (scaffold project_path project_name force w).2 (marker d)
  = stat w (marker d).
Proof.
  set (root := root_of project_path project_name). intros [s ->] Hnd.
  assert ((root ++ s) ++ ["__init__.py"] ∉ artifact_paths root project_name)
    as Hna.
  { rewrite artifact_paths_rel. intros (r & E & Hr)%list_elem_of_fmap.
    rewrite <- app_assoc in E. apply app_inv_head in E.
    assert (Forall (λ r : path, last r ≠ Some "__init__.py") artifact_rels)
      as Hall by compute_done.
    rewrite Forall_forall in Hall. apply (Hall r Hr).
    by rewrite <- E, last_snoc. }
  pose proof (frames_scaffold project_path project_name force w) as Ht.
  simpl in Ht. fold root in Ht.
  destruct (Ht (marker (root ++ s)))
    as [?|[((p & Hp & Hpre)&_)|[([_ Ha]&_)|([Ha|Hm]&_)]]]; [done|..].
  - rewrite mkdir_targets_rel in Hp.
    apply list_elem_of_fmap in Hp as (t & -> & Ht').
    rewrite marker_app, <- app_assoc in Hpre. apply prefix_app_inv in Hpre.
    assert (Forall (λ t : path, "__init__.py" ∉ t) target_rels)
      as Hall by compute_done.
    rewrite Forall_forall in Hall. destruct (Hall t Ht').
    destruct Hpre as [k ->]. rewrite !elem_of_app, elem_of_cons. auto.
  - rewrite marker_app in Ha. by destruct Hna.
  - rewrite marker_app in Ha. by destruct Hna.
  - apply list_elem_of_fmap in Hm as (d' & E & Hd'). apply (inj marker) in E.
    subst d'. by destruct Hnd.
Qed.

Lemma undeclared_directory_gets_no_marker_witness :
  stat (scaffold "/tmp/out" "billing" false empty_world).2
    (marker ["/"; "tmp"; "out"; "billing"; "tests"])
  = stat empty_world (marker ["/"; "tmp"; "out"; "billing"; "tests"]).
Proof.
  apply (undeclared_directory_gets_no_marker "/tmp/out" "billing" false
           empty_world ["/"; "tmp"; "out"; "billing"; "tests"]).
  - exists ["tests"]. reflexivity.
  - apply (bool_decide_eq_false_1 _). vm_compute. reflexivity.
Defined.

Lemma marker_paths_nodup root : NoDup (marker_paths root).
Proof.
  pose proof (artifact_marker_nodup root "") as H.
  by apply NoDup_app in H as (_ & _ & H).
Qed.

(** A marker that the run creates holds the fixed marker text: after a
    successful run, the marker of a declared directory whose path was
    free is the file ["# Auto-generated __init__.py\n"]. *)
Theorem new_marker_content project_path project_name force w w' d :
  scaffold project_path project_name force w = (Ok tt, w') →
  d ∈ dirs (root_of project_path project_name) →
  stat w (marker d) = None →
  stat w' (marker d) = Some (File init_content).
Proof.
  set (root := root_of project_path project_name). intros Hok Hd Hfree.
  destruct (scaffold_ok_inv _ _ _ _ _ Hok) as (w1 & w2 & _ & Hdirs & Hw & ->).
  fold root in Hdirs, Hw. change (stat w2 (marker d) = Some (File init_content)).
  destruct (list_elem_of_split _ _ Hd) as (pre & post & Hsplit).
  pose proof (marker_paths_nodup root) as Hnd.
  unfold marker_paths in Hnd. rewrite Hsplit, fmap_app, fmap_cons in Hnd.
  apply NoDup_app in Hnd as (_ & Hpre & [Hpost _]%NoDup_cons).
  assert (marker d ∈ marker_paths root) as Hm by by apply list_elem_of_fmap_2.
  assert (¬ makeable root project_name (marker d)) as Hnm.
  { apply written_not_makeable, elem_of_app. by right. }
  unfold make_dirs in Hdirs. rewrite Hsplit, for_each_app in Hdirs.
  apply bind_ok in Hdirs as ([] & wa & Hpre_ok & Hrest). simpl in Hrest.
  apply bind_ok in Hrest as ([] & wb & Hbody & Hpost_ok).
  apply bind_ok in Hbody as ([] & wc & Hmk & Hinit).
  (* the marker path is still free when its directory is reached *)
  assert (stat wc (marker d) = None) as Hc.
  { assert (frames (λ _, False) (λ q, q ∈ marker <$> pre)
              (makeable root project_name)
              (for_each pre (λ d, mkdir d true true;; write_init d false);;
               mkdir d true true)) as Hf.
    { apply frames_bind.
      - apply frames_dirs_loop. intros x Hx. split.
        + by apply list_elem_of_fmap_2.
        + intros q. apply dirs_targets. rewrite Hsplit. apply elem_of_app. by left.
      - intros _. apply frames_mkdir. intros q. by apply dirs_targets. }
    specialize (Hf w). rewrite bind_unfold, Hpre_ok, Hmk in Hf.
    eapply touches_none; [exact Hf|tauto| |exact Hnm|exact Hfree].
    intros Hin. by apply (Hpre (marker d)); [|left]. }
  apply write_init_ok in Hinit as [_ Hinit].
  specialize (Hinit (or_intror Hc)).
  (* and nothing after overwrites it *)
  assert (frames (λ q, q ∈ artifact_paths root project_name) anywhere anywhere
            (for_each post (λ d, mkdir d true true;; write_init d false);;
             write_all (catalog root project_name) force)) as Hf.
  { apply frames_bind; [by apply frames_dirs_loop|]. intros _.
    apply frames_write_all. intros a Ha. split_and!; try done.
    intros _. by apply list_elem_of_fmap_2. }
  specialize (Hf wb). rewrite bind_unfold, Hpost_ok, Hw in Hf.
  eapply touches_file_kept; [exact Hf| |exact Hinit].
  intros Ha. by apply (artifact_not_marker root project_name (marker d)).
Qed.

Lemma new_marker_content_witness :
  stat (scaffold "/tmp/out" "billing" true busy_world).2
    (marker ["/"; "tmp"; "out"; "billing"; "tests"; "api"])
  = Some (File init_content).
Proof.
  apply (new_marker_content "/tmp/out" "billing" true busy_world).
  - apply run_ok. vm_compute. reflexivity.
  - apply (bool_decide_eq_true_1 _). vm_compute. reflexivity.
  - vm_compute. reflexivity.
Defined.

Lemma for_each_fixed {A} (l : list A) (body : A → M unit) w :
  (∀ x, x ∈ l → body x w = (Ok tt, w)) → for_each l body w = (Ok tt, w).
Proof.
  induction l as [|x l IH]; intros H; [done|]. simpl.
  rewrite bind_unfold, H by left. apply IH. intros y Hy. apply H. by right.
Qed.

(** Under [force] the run is idempotent on a tree: after a run with
    [force = true] that returned normally, the same run again returns
    normally, prints its line and leaves every file and directory as it
    is. *)
Theorem forced_rerun_changes_nothing project_path project_name w w1 :
  well_formed w →
  scaffold project_path project_name true w = (Ok tt, w1) →
  scaffold project_path project_name true w1
  = (Ok tt, printed (ok_message (root_of project_path project_name)) w1).
Proof.
  set (root := root_of project_path project_name). intros Hwf Hok.
  assert (well_formed w1) as Hwf1.
  { pose proof (keeps_tree_scaffold project_path project_name true w Hwf) as H.
    by rewrite Hok in H. }
  destruct (scaffold_ok_root _ _ _ _ _ Hok) as [Hroot _]. fold root in Hroot.
  destruct (run_complete _ _ _ _ _ Hok) as (Hdirs & _ & _). fold root in Hdirs.
  rewrite scaffold_phases. fold root. unfold scaffold_upto.
  rewrite bind_unfold, bind_unfold, root_guard_spec, Hroot, andb_false_r.
  rewrite bind_unfold. unfold make_dirs. rewrite for_each_fixed.
  - unfold write_all. rewrite for_each_fixed; [done|].
    intros [p c] Hin. apply write_file_fixed; [done|].
    by eapply scaffold_renders; eauto.
  - intros d Hd. destruct (Hdirs d Hd) as (Hdir & _ & Hm).
    unfold mkdir. rewrite bind_unfold, mkdir_aux_noop by done.
    unfold write_init. fold (marker d). rewrite bind_unfold. simpl.
    by rewrite bool_decide_eq_true_2.
Qed.

Lemma forced_rerun_changes_nothing_witness :
  scaffold "/tmp/out" "billing" true
    (scaffold "/tmp/out" "billing" true edited_world).2
  = (Ok tt, printed (ok_message (root_of "/tmp/out" "billing"))
              (scaffold "/tmp/out" "billing" true edited_world).2).
Proof.
  apply (forced_rerun_changes_nothing "/tmp/out" "billing" edited_world).
  - compute_done.
  - apply run_ok. vm_compute. reflexivity.
Defined.

(** The run makes the way to the root: after a successful run on a tree,
    the root and every path above it are directories. *)
Theorem root_ancestors_exist project_path project_name force w w' :
  well_formed w →
  scaffold project_path project_name force w = (Ok tt, w') →
  ∀ q, q `prefix_of` root_of project_path project_name → stat w' q = Some Dir.
Proof.
  intros Hwf Hok.
  assert (well_formed w') as Hwf'.
  { pose proof (keeps_tree_scaffold project_path project_name force w Hwf) as H.
    by rewrite Hok in H. }
  destruct (scaffold_ok_root _ _ _ _ _ Hok) as [Hroot _].
  by apply tree_prefixes_are_dirs.
Qed.

Lemma root_ancestors_exist_witness :
  stat (scaffold "/tmp/out" "billing" false empty_world).2 ["/"; "tmp"; "out"]
  = Some Dir.
Proof.
  apply (root_ancestors_exist "/tmp/out" "billing" false empty_world).
  - compute_done.
  - apply run_ok. vm_compute. reflexivity.
  - exists ["billing"]. reflexivity.
Defined.

(** ** The packages below [src] *)

Lemma prefixes_elem {A} (t l : list A) : t `prefix_of` l → t ∈ prefixes l.
Proof.
  intros [k ->]. unfold prefixes. apply list_elem_of_fmap.
  exists (length t). split; [by rewrite take_app_length|].
  apply elem_of_seq. rewrite length_app. lia.
Qed.

Lemma src_chain_declared :
  Forall (λ r : path,
            Forall (λ t : path, head t = Some "src" → t ≠ r → t ∈ dir_rels)
                   (prefixes r))
         artifact_rels.
Proof. compute_done. Qed.

(** Every generated file below [src] is inside a chain of packages: after
    a run that returned normally, each directory from [root/src] down to
    the directory of the file exists and holds an [__init__.py]. *)
Theorem src_packages_marked project_path project_name force w w' q d :
  scaffold project_path project_name force w = (Ok tt, w') →
  q ∈ artifact_paths (root_of project_path project_name) project_name →
  root_of project_path project_name ++ ["src"] `prefix_of` d →
  d `prefix_of` q → d ≠ q →
  stat w' d = Some Dir ∧ is_Some (stat w' (marker d)).
Proof.
  set (root := root_of project_path project_name).
  intros Hok Hq [s ->] Hd Hne.
  destruct (run_complete _ _ _ _ _ Hok) as (Hdirs & _). fold root in Hdirs.
  rewrite artifact_paths_rel in Hq.
  apply list_elem_of_fmap in Hq as (r & -> & Hr).
  rewrite <- app_assoc in Hd, Hne. simpl in Hd, Hne.
  apply prefix_app_inv in Hd.
  pose proof src_chain_declared as Hall. rewrite Forall_forall in Hall.
  specialize (Hall r Hr). rewrite Forall_forall in Hall.
  assert ("src" :: s ∈ dir_rels) as Hin.
  { apply Hall; [by apply prefixes_elem|done|congruence]. }
  destruct (Hdirs ((root ++ ["src"]) ++ s)) as (H1 & _ & H2); [|done].
  rewrite dirs_rel, <- app_assoc. by apply list_elem_of_fmap_2.
Qed.

Lemma src_packages_marked_witness :
  stat (scaffold "/tmp/out" "billing" false empty_world).2
    ["/"; "tmp"; "out"; "billing"; "src"; "api"; "v1"] = Some Dir
  ∧ is_Some (stat (scaffold "/tmp/out" "billing" false empty_world).2
               (marker ["/"; "tmp"; "out"; "billing"; "src"; "api"; "v1"])).
Proof.
  apply (src_packages_marked "/tmp/out" "billing" false empty_world _
           ["/"; "tmp"; "out"; "billing"; "src"; "api"; "v1"; "endpoints";
            "health.py"]).
  - apply run_ok. vm_compute. reflexivity.
  - apply (bool_decide_eq_true_1 _). vm_compute. reflexivity.
  - exists ["api"; "v1"]. reflexivity.
  - exists ["endpoints"; "health.py"]. reflexivity.
  - discriminate.
Defined.

(** ** The two render functions with a parameter *)

Lemma split_on_nonempty c s : split_on c s ≠ [].
Proof. destruct s as [|a s]; simpl; [done|]. by repeat case_match. Qed.

Lemma single_line_inv a s :
  single_line (String a s) → a ≠ "010"%char ∧ single_line s.
Proof.
  unfold single_line. simpl. destruct (decide (a = "010"%char)); [done|].
  pose proof (split_on_nonempty "010"%char s) as Hne.
  destruct (split_on "010"%char s) as [|l ls]; [done|]. by intros [= -> ->].
Qed.

Lemma split_on_line a t :
  single_line a →
  split_on "010"%char (a +:+ String "010"%char t) = a :: split_on "010"%char t.
Proof.
  induction a as [|x a IH]; intros Ha; simpl; [done|].
  apply single_line_inv in Ha as [Hx Ha].
  rewrite decide_False by done. by rewrite IH.
Qed.

Lemma single_line_app a b :
  single_line a → single_line b → single_line (a +:+ b).
Proof.
  intros Ha Hb. induction a as [|x a IH]; [done|].
  apply single_line_inv in Ha as [Hx Ha]. unfold single_line in *. simpl.
  rewrite decide_False by done. by rewrite IH.
Qed.

(** Splitting a literal at its line breaks gives back its lines. *)
Lemma split_on_text ls :
  Forall single_line ls → ls ≠ [] → split_on "010"%char (text ls) = ls.
Proof.
  induction 1 as [|l ls Hl Hls IH]; intros Hne; [done|].
  destruct ls as [|l' ls]; [exact Hl|].
  change (text (l :: l' :: ls)) with (l +:+ String "010"%char (text (l' :: ls))).
  rewrite split_on_line by done. by rewrite IH.
Qed.

Ltac single_lines :=
  repeat first
    [ assumption
    | apply Forall_nil
    | apply Forall_cons_2
    | by vm_compute
    | apply single_line_app ].

(** [make_pyproject] for a name without a line break: [dedent] removes the
    four columns of the literal and [lstrip] its first line break, so the
    text is the template at the left margin with the name between the
    quotes, and it ends with a line break. *)
Theorem make_pyproject_single_line project_name :
  single_line project_name →
  make_pyproject project_name = text [
    "[project]";
    "name = " +:+ quoted project_name;
    "version = " +:+ quoted "0.1.0";
    "description = " +:+ quoted "DDD FastAPI service";
    "requires-python = " +:+ quoted ">=3.11";
    "dependencies = [";
    "  " +:+ quoted "fastapi[all]>=0.116.1" +:+ ",";
    "  " +:+ quoted "pydantic>=2.3.0" +:+ ",";
    "  " +:+ quoted "python-dotenv" +:+ ",";
    "]";
    "";
    "[tool.pytest.ini_options]";
    "addopts = " +:+ quoted "-q";
    "testpaths = [" +:+ quoted "tests" +:+ "]";
    ""
  ].
Proof.
  intros Hn. unfold make_pyproject, dedent.
  rewrite split_on_text; [|single_lines|done].
  vm_compute. reflexivity.
Qed.

Lemma make_pyproject_single_line_witness :
  make_pyproject "billing" = text [
    "[project]";
    "name = " +:+ quoted "billing";
    "version = " +:+ quoted "0.1.0";
    "description = " +:+ quoted "DDD FastAPI service";
    "requires-python = " +:+ quoted ">=3.11";
    "dependencies = [";
    "  " +:+ quoted "fastapi[all]>=0.116.1" +:+ ",";
    "  " +:+ quoted "pydantic>=2.3.0" +:+ ",";
    "  " +:+ quoted "python-dotenv" +:+ ",";
    "]";
    "";
    "[tool.pytest.ini_options]";
    "addopts = " +:+ quoted "-q";
    "testpaths = [" +:+ quoted "tests" +:+ "]";
    ""
  ].
Proof. apply (make_pyproject_single_line "billing"). vm_compute. reflexivity. Defined.

(** [make_compose] for a name without a line break: the compose file at
    the left margin, with the container named [<project_name>-app]. *)
Theorem make_compose_single_line project_name :
  single_line project_name →
  make_compose project_name = text [
    "services:";
    "  app:";
    "    build:";
    "      context: ../";
    "      dockerfile: Dockerfile";
    "    container_name: " +:+ project_name +:+ "-app";
    "    ports:";
    "      - " +:+ quoted "8000:8000";
    "    volumes:";
    "      - ../:/app";
    "    env_file:";
    "      - ../.env";
    "    command: uvicorn src.main:app --host 0.0.0.0 --port 8000 --reload";
    ""
  ].
Proof.
  intros Hn. unfold make_compose, dedent.
  rewrite split_on_text; [|single_lines|done].
  vm_compute. reflexivity.
Qed.

Lemma make_compose_single_line_witness :
  make_compose "billing" = text [
    "services:";
    "  app:";
    "    build:";
    "      context: ../";
    "      dockerfile: Dockerfile";
    "    container_name: " +:+ "billing" +:+ "-app";
    "    ports:";
    "      - " +:+ quoted "8000:8000";
    "    volumes:";
    "      - ../:/app";
    "    env_file:";
    "      - ../.env";
    "    command: uvicorn src.main:app --host 0.0.0.0 --port 8000 --reload";
    ""
  ].
Proof. apply (make_compose_single_line "billing"). vm_compute. reflexivity. Defined.

(** The hypothesis is needed: a line break in the name puts a line at the
    left margin into the literal, [dedent] then removes nothing, and the
    lines after the first keep their four columns. *)
Example make_pyproject_two_line_name :
  split_on "010"%char (make_pyproject ("a" +:+ nl +:+ "b")) !! 3
  = Some ("    version = " +:+ quoted "0.1.0").
Proof. vm_compute. reflexivity. Qed.
